(** * Evaluation reporter of [src/visual_results.py]

    A shallow embedding of the five functions of [visual_results.py]
    ([generate_evaluation_reports_and_plots], [plot_confusion_matrix],
    [generate_classification_report], [plot_roc_curve],
    [plot_precision_recall_curve]) together with the part of their
    environment they talk to: Python exceptions, the pandas table, the file
    system, the pyplot figure registry, the logger and the scikit-learn
    metrics they call. *)

From Stdlib Require Import ZArith String Ascii List Lia.
From Corelib Require Import SpecFloat.
From stdpp Require Import base gmap strings list pretty.

Open Scope Z_scope.

(** ** Binary64 numbers

    Python floats and numpy [float64] values are IEEE-754 binary64 numbers:
    [spec_float] with precision 53 and maximal exponent 1024. *)

Module Float64.

Definition prec : Z := 53.
Definition emax : Z := 1024.

Abbreviation float := spec_float.

Definition of_Z (z : Z) : float := binary_normalize prec emax z 0 false.

Definition add : float -> float -> float := SFadd prec emax.
Definition sub : float -> float -> float := SFsub prec emax.
Definition mul : float -> float -> float := SFmul prec emax.
Definition div : float -> float -> float := SFdiv prec emax.
Definition neg : float -> float := SFopp.

Definition nan : float := S754_nan.
Definition inf : float := S754_infinity false.
Definition zero : float := S754_zero false.
Definition one : float := S754_finite false 4503599627370496 (-52).
Definition two : float := S754_finite false 4503599627370496 (-51).

(** The literal [0.5]. *)
Definition half : float := S754_finite false 4503599627370496 (-53).

(** A decimal literal [n/d], rounded to nearest as the Python parser does
    (for instance [decimal 1 10] is the float written [0.1]). *)
Definition decimal (n d : Z) : float := div (of_Z n) (of_Z d).

(** [x >= y], [x < y], [x == y] and [x != y] of IEEE-754: every comparison
    with NaN is false, except [!=]. *)
Definition ge (x y : float) : bool := SFleb y x.
Definition lt (x y : float) : bool := SFltb x y.
Definition eqb (x y : float) : bool := SFeqb x y.

Definition isfinite (x : float) : bool :=
  match x with
  | S754_zero _ | S754_finite _ _ _ => true
  | S754_infinity _ | S754_nan => false
  end.

(** [numpy.sum] of a short array: left to right from [0.0]. (Arrays of
    eight elements and more are summed pairwise by numpy, which can change
    the last bits of the result; the sign of a zero sum is not tracked.) *)
Definition sum (l : list float) : float := fold_left add l zero.

(** [numpy.diff]: [l[i+1] - l[i]]. *)
Definition diff (l : list float) : list float :=
  zip_with sub (tail l) l.

End Float64.

Import Float64.

(** ** Python exceptions and results *)

Module Py.

(** The exception classes the modelled calls raise, and the two
    interpreter-level ones that do not derive from [Exception]. *)
Inductive exc_class :=
| KeyError | ValueError | TypeError | IndexError | RuntimeError
| FileNotFoundError | FileExistsError | IsADirectoryError
| NotADirectoryError | PermissionError
| KeyboardInterrupt | SystemExit.

(** [isinstance(e, Exception)]: [KeyboardInterrupt] and [SystemExit]
    derive from [BaseException] only. *)
Definition is_Exception (c : exc_class) : bool :=
  match c with
  | KeyboardInterrupt | SystemExit => false
  | _ => true
  end.

(** An exception object: its class and [str(e)]. *)
Record exn := Exc { exc_type : exc_class; exc_str : string }.

Inductive result (A : Type) :=
| Ok (a : A)
| Raise (e : exn).
Arguments Ok {A} a.
Arguments Raise {A} e.

Definition rbind {A B} (r : result A) (k : A -> result B) : result B :=
  match r with
  | Ok a => k a
  | Raise e => Raise e
  end.

Definition is_Ok {A} (r : result A) : bool :=
  match r with Ok _ => true | Raise _ => false end.

End Py.

Import Py.

#[global] Instance result_bind : MBind result := λ A B k r, rbind r k.
#[global] Instance result_ret : MRet result := λ A a, Ok a.

(** ** pandas columns *)

Inductive column :=
| IntCol (l : list Z)
| FloatCol (l : list float)
| StrCol (l : list string).

Inductive pyval :=
| PInt (z : Z)
| PFloat (f : float)
| PStr (s : string).

Definition col_len (c : column) : nat :=
  match c with
  | IntCol l => length l
  | FloatCol l => length l
  | StrCol l => length l
  end.

(** [Series.tolist()] *)
Definition tolist (c : column) : list pyval :=
  match c with
  | IntCol l => PInt <$> l
  | FloatCol l => PFloat <$> l
  | StrCol l => PStr <$> l
  end.

(** ** numpy and scikit-learn

    The metrics functions the module calls, after scikit-learn 1.x. Label
    columns are integer coded, as in the data model (true binary label 0/1);
    a label column of another dtype is refused with a [ValueError], which is
    what scikit-learn does for text labels against integer predictions and
    for continuous targets (float columns holding integral values only, which
    scikit-learn accepts, are outside the model). *)

Module Sklearn.

Definition as_labels (c : column) : result (list Z) :=
  match c with
  | IntCol l => Ok l
  | FloatCol _ => Raise (Exc ValueError "continuous is not supported")
  | StrCol _ =>
      Raise (Exc ValueError "Mix of label input types (string and number)")
  end.

Definition as_scores (c : column) : result (list float) :=
  match c with
  | FloatCol l => Ok l
  | IntCol l => Ok (of_Z <$> l)
  | StrCol _ => Raise (Exc ValueError "could not convert string to float")
  end.

(** [numpy.unique]: the distinct values, ascending. *)
Fixpoint insert_uniq (x : Z) (l : list Z) : list Z :=
  match l with
  | [] => [x]
  | y :: l' =>
      if x <? y then x :: y :: l'
      else if x =? y then y :: l'
      else y :: insert_uniq x l'
  end.

Definition np_unique (l : list Z) : list Z := foldr insert_uniq [] l.

(** [np.unique(np.concatenate([a, b]))] on two label columns. *)
Definition unique_concat (a b : column) : result (list Z) :=
  la ← as_labels a;
  lb ← as_labels b;
  Ok (np_unique (la ++ lb)).

Definition inconsistent_length : exn :=
  Exc ValueError "Found input variables with inconsistent numbers of samples".

(** Number of samples with true label [a] and predicted label [b]. *)
Definition count_pair (a b : Z) (y_true y_pred : list Z) : Z :=
  Z.of_nat (length (filter (λ p, p = (a, b)) (zip y_true y_pred))).

Definition contingency (labels y_true y_pred : list Z) : list (list Z) :=
  (λ a, (λ b, count_pair a b y_true y_pred) <$> labels) <$> labels.

Definition mem (x : Z) (l : list Z) : bool := bool_decide (x ∈ l).

(** [confusion_matrix(y_true, y_pred, labels=...)]: rows are true labels,
    columns predicted labels, in the order of [labels] (the sorted labels
    present when [labels] is not given). *)
Definition confusion_matrix (y_true y_pred : list Z)
    (labels : option (list Z)) : result (list (list Z)) :=
  if negb (length y_true =? length y_pred)%nat then Raise inconsistent_length
  else
    match labels with
    | None => Ok (contingency (np_unique (y_true ++ y_pred)) y_true y_pred)
    | Some ls =>
        match ls, y_true with
        | [], _ =>
            Raise (Exc ValueError "'labels' should contains at least one label.")
        | _, [] => Ok (contingency ls y_true y_pred)
        | _, _ =>
            if existsb (λ l, mem l y_true) ls
            then Ok (contingency ls y_true y_pred)
            else Raise (Exc ValueError
                          "At least one label specified must be in y_true")
        end
    end.

(** *** Classification report

    The report is kept as data: one row per class label, then the summary
    rows. The text layout (column widths, two decimals) is not modelled. *)

Record report_row := ReportRow {
  row_name : string;
  row_precision : float;
  row_recall : float;
  row_f1 : float;
  row_support : Z
}.

Record report := Report {
  class_rows : list report_row;
  summary_rows : list report_row
}.

Definition count_eq (a : Z) (l : list Z) : Z :=
  Z.of_nat (length (filter (λ x, x = a) l)).

(** [_prf_divide] with [zero_division="warn"]: [0.0] on a zero
    denominator. *)
Definition prf_divide (n d : Z) : float :=
  if d =? 0 then zero else div (of_Z n) (of_Z d).

Definition class_row (y_true y_pred : list Z) (lbl : Z * string) : report_row :=
  let tp := count_pair lbl.1 lbl.1 y_true y_pred in
  let pred_sum := count_eq lbl.1 y_pred in
  let true_sum := count_eq lbl.1 y_true in
  {| row_name := lbl.2;
     row_precision := prf_divide tp pred_sum;
     row_recall := prf_divide tp true_sum;
     row_f1 := prf_divide (2 * tp) (true_sum + pred_sum);
     row_support := true_sum |}.

Definition mean (l : list float) : float :=
  div (sum l) (of_Z (Z.of_nat (length l))).

Definition weighted (w : list Z) (l : list float) : float :=
  if (foldr Z.add 0 w) =? 0 then zero
  else div (sum (zip_with (λ n x, mul (of_Z n) x) w l))
           (of_Z (foldr Z.add 0 w)).

Definition summary (labels y_true y_pred : list Z) (rows : list report_row)
    (micro_is_accuracy : bool) : list report_row :=
  let total := foldr Z.add 0 (row_support <$> rows) in
  let tp := foldr Z.add 0 ((λ a, count_pair a a y_true y_pred) <$> labels) in
  let pred := foldr Z.add 0 ((λ a, count_eq a y_pred) <$> labels) in
  let w := row_support <$> rows in
  [ {| row_name := if micro_is_accuracy then "accuracy" else "micro avg";
       row_precision := prf_divide tp pred;
       row_recall := prf_divide tp total;
       row_f1 := prf_divide (2 * tp) (total + pred);
       row_support := total |};
    {| row_name := "macro avg";
       row_precision := mean (row_precision <$> rows);
       row_recall := mean (row_recall <$> rows);
       row_f1 := mean (row_f1 <$> rows);
       row_support := total |};
    {| row_name := "weighted avg";
       row_precision := weighted w (row_precision <$> rows);
       row_recall := weighted w (row_recall <$> rows);
       row_f1 := weighted w (row_f1 <$> rows);
       row_support := total |} ].

Definition subset_of (a b : list Z) : bool := forallb (λ x, mem x b) a.

(** [classification_report(y_true, y_pred, labels=..., target_names=...)] *)
Definition classification_report (y_true y_pred : list Z)
    (labels : option (list Z)) (target_names : option (list string))
    : result report :=
  if negb (length y_true =? length y_pred)%nat then Raise inconsistent_length
  else
    let present := np_unique (y_true ++ y_pred) in
    let ls := default present labels in
    let micro_is_accuracy :=
      match labels with
      | None => true
      | Some given => subset_of present given
      end in
    let names := default (pretty <$> ls) target_names in
    if bool_decide (is_Some labels) && negb (length ls =? length names)%nat
    then Raise (Exc ValueError
                  "Number of classes does not match size of target_names")
    else
      let rows := class_row y_true y_pred <$> zip ls names in
      Ok {| class_rows := rows;
            summary_rows := summary ls y_true y_pred rows micro_is_accuracy |}.

(** *** Binary classification curves *)

(** [type_of_target]: more than two classes is a multiclass target, which
    the curves refuse. *)
Definition is_multiclass (y_true : list Z) : bool :=
  (2 <? length (np_unique y_true))%nat.

(** [_check_pos_label_consistency] with [pos_label=None]: the classes must
    be one of [{0,1}], [{-1,1}], [{0}], [{-1}], [{1}]; the positive label
    is then [1]. *)
Definition pos_label_ok (y_true : list Z) : bool :=
  bool_decide (np_unique y_true ∈ [[0; 1]; [-1; 1]; [0]; [-1]; [1]]).

(** Stable ascending sort on the score ([numpy.argsort] with
    [kind="mergesort"]). *)
Fixpoint insert_by_score (x : float * bool) (l : list (float * bool))
    : list (float * bool) :=
  match l with
  | [] => [x]
  | y :: l' => if lt x.1 y.1 then x :: y :: l' else y :: insert_by_score x l'
  end.

Definition argsort (l : list (float * bool)) : list (float * bool) :=
  fold_left (λ acc x, insert_by_score x acc) l [].

(** Cumulated true and false positives at each distinct score, over the
    samples ranked by decreasing score: one point [(fps, tps, threshold)]
    at the last sample of every run of equal scores. *)
Fixpoint cumulate (ranked : list (float * bool)) (tps fps : Z)
    : list (Z * Z * float) :=
  match ranked with
  | [] => []
  | (s, positive) :: rest =>
      let tps' := if positive then tps + 1 else tps in
      let fps' := if positive then fps else fps + 1 in
      match rest with
      | [] => [(fps', tps', s)]
      | (s', _) :: _ =>
          if eqb s s' then cumulate rest tps' fps'
          else (fps', tps', s) :: cumulate rest tps' fps'
      end
  end.

(** [_binary_clf_curve] *)
Definition binary_clf_curve (y_true : list Z) (y_score : list float)
    : result (list (Z * Z * float)) :=
  if is_multiclass y_true
  then Raise (Exc ValueError "multiclass format is not supported")
  else if negb (length y_true =? length y_score)%nat
  then Raise inconsistent_length
  else if negb (forallb isfinite y_score)
  then Raise (Exc ValueError "Input contains NaN or infinity.")
  else if negb (pos_label_ok y_true)
  then Raise (Exc ValueError
                "y_true takes value outside {0, 1} or {-1, 1} and pos_label is not specified")
  else
    let samples := zip y_score ((λ y, y =? 1) <$> y_true) in
    Ok (cumulate (rev (argsort samples)) 0 0).

(** [drop_intermediate=True]: keep the first and the last point and the
    points where the second difference of [fps] or of [tps] is not zero. *)
Fixpoint corners (pts : list (Z * Z * float)) : list (Z * Z * float) :=
  match pts with
  | a :: rest =>
      match rest with
      | b :: c :: _ =>
          if negb (c.1.1 - 2 * b.1.1 + a.1.1 =? 0)
             || negb (c.1.2 - 2 * b.1.2 + a.1.2 =? 0)
          then b :: corners rest
          else corners rest
      | _ => rest
      end
  | [] => []
  end.

Definition drop_intermediate (pts : list (Z * Z * float))
    : list (Z * Z * float) :=
  if (2 <? length pts)%nat then take 1 pts ++ corners pts else pts.

(** Rates from counts: [counts / counts[-1]], or NaN everywhere when the
    last count is not positive (the class is absent; scikit-learn warns). *)
Definition rates (counts : list Z) : list float :=
  let last_count := List.last counts 0 in
  if last_count <=? 0 then (λ _, nan) <$> counts
  else (λ c, div (of_Z c) (of_Z last_count)) <$> counts.

(** [roc_curve(y_true, y_score)]: [(fpr, tpr, thresholds)] *)
Definition roc_curve (y_true : list Z) (y_score : list float)
    : result (list float * list float * list float) :=
  pts ← binary_clf_curve y_true y_score;
  let pts := drop_intermediate pts in
  let fps := 0 :: ((λ p, p.1.1) <$> pts) in
  let tps := 0 :: ((λ p, p.1.2) <$> pts) in
  Ok (rates fps, rates tps, inf :: (snd <$> pts)).

(** [numpy.trapz(y, x)] *)
Definition trapz (y x : list float) : float :=
  sum (zip_with (λ d s, div (mul d s) two) (diff x) (zip_with add (tail y) y)).

(** [auc(x, y)] *)
Definition auc (x y : list float) : result float :=
  if negb (length x =? length y)%nat then Raise inconsistent_length
  else if (length x <? 2)%nat
  then Raise (Exc ValueError
                "At least 2 points are needed to compute area under curve")
  else
    let dx := diff x in
    if existsb (λ d, lt d zero) dx
    then if forallb (λ d, ge zero d) dx
         then Ok (mul (of_Z (-1)) (trapz y x))
         else Raise (Exc ValueError "x is neither increasing nor decreasing")
    else Ok (trapz y x).

(** [precision_recall_curve(y_true, y_score)]: [(precision, recall,
    thresholds)], by decreasing recall, closed by the point
    [(precision 1, recall 0)]. *)
Definition precision_recall_curve (y_true : list Z) (y_score : list float)
    : result (list float * list float * list float) :=
  pts ← binary_clf_curve y_true y_score;
  let precision :=
    (λ p, let tps := p.1.2 in let ps := p.1.2 + p.1.1 in
          if ps =? 0 then zero else div (of_Z tps) (of_Z ps)) <$> pts in
  let tps := (λ p, p.1.2) <$> pts in
  let last_tps := List.last tps 0 in
  let recall :=
    if last_tps =? 0 then (λ _, one) <$> tps
    else (λ t, div (of_Z t) (of_Z last_tps)) <$> tps in
  Ok (rev precision ++ [one], rev recall ++ [zero], rev (snd <$> pts)).

(** [average_precision_score(y_true, y_score)]:
    [-sum(diff(recall) * precision[:-1])] *)
Definition average_precision_score (y_true : list Z) (y_score : list float)
    : result float :=
  '(precision, recall, _) ← precision_recall_curve y_true y_score;
  Ok (neg (sum (zip_with mul (diff recall) precision))).

End Sklearn.

Import Sklearn.

(** ** POSIX paths and the file system *)

Module Posix.

Definition is_slash (c : ascii) : bool := Ascii.eqb c "/".

Fixpoint all_slash (s : string) : bool :=
  match s with
  | EmptyString => true
  | String c s' => is_slash c && all_slash s'
  end.

Fixpoint has_slash (s : string) : bool :=
  match s with
  | EmptyString => false
  | String c s' => is_slash c || has_slash s'
  end.

Fixpoint ends_with_slash (s : string) : bool :=
  match s with
  | EmptyString => false
  | String c EmptyString => is_slash c
  | String _ s' => ends_with_slash s'
  end.

Definition starts_with_slash (s : string) : bool :=
  match s with
  | String c _ => is_slash c
  | EmptyString => false
  end.

(** [s.rstrip("/")] *)
Fixpoint rstrip_slash (s : string) : string :=
  match s with
  | EmptyString => EmptyString
  | String c s' => if all_slash s then EmptyString else String c (rstrip_slash s')
  end.

(** [p[:p.rfind("/") + 1]] *)
Fixpoint head_of (p : string) : string :=
  match p with
  | EmptyString => EmptyString
  | String c p' => if has_slash p then String c (head_of p') else EmptyString
  end.

(** [head.rstrip("/")] unless [head] is made of slashes only. *)
Definition normdir (head : string) : string :=
  if all_slash head then head else rstrip_slash head.

(** [os.path.dirname] *)
Definition dirname (p : string) : string := normdir (head_of p).

(** [os.path.join(a, b)] *)
Definition path_join (a b : string) : string :=
  if starts_with_slash b then b
  else if bool_decide (a = EmptyString) || ends_with_slash a then a +:+ b
  else a +:+ "/" +:+ b.

(** The proper ancestors of a path that are neither the root nor the
    current directory, nearest first. *)
Fixpoint ancestors (fuel : nat) (p : string) : list string :=
  match fuel with
  | O => []
  | S n =>
      let d := dirname p in
      if all_slash d then [] else d :: ancestors n d
  end.

End Posix.

Import Posix.

(** ** Figures and artifacts

    A figure is the list of what was drawn on it; the picture saved by
    [savefig] is the figure at that time. Legend labels keep the number they
    print ([f"... {x:0.2f}"]), not its two-decimal text. *)

Inductive legend_label :=
| AucLabel (roc_auc : float)
| AvgPrecisionLabel (avg_precision : float).

Inductive artist :=
| Heatmap (cm : list (list Z)) (ticklabels : list string) (cmap : string)
| Line (xs ys : list float) (color : string) (lw : Z) (linestyle : string)
       (label : option legend_label)
| Title (text : string)
| XLabel (text : string)
| YLabel (text : string)
| Legend (loc : string).

Definition Figure : Type := list artist.

Inductive artifact :=
| Png (fig : Figure)
| Text (content : report).

(** The file system: the directories and regular files that exist, by path,
    and the paths the operating system refuses to create or to open for
    writing (read-only directory or file, missing permission). *)
Record FileSystem := mkFS {
  dirs : gset string;
  files : gmap string artifact;
  locked : gset string
}.

Definition is_file (fs : FileSystem) (p : string) : bool :=
  bool_decide (is_Some (files fs !! p)).

(** [os.path.isdir]; the root and the current directory (the empty
    [dirname]) always exist. *)
Definition isdir (fs : FileSystem) (p : string) : bool :=
  all_slash p || bool_decide (p ∈ dirs fs).

Definition os_error (c : exc_class) (what p : string) : exn :=
  Exc c (what +:+ ": '" +:+ p +:+ "'").

(** [os.makedirs(d, exist_ok=True)] *)
Definition makedirs (d : string) (fs : FileSystem) : result FileSystem :=
  if bool_decide (d = EmptyString)
  then Raise (os_error FileNotFoundError "[Errno 2] No such file or directory" d)
  else
    let q := normdir d in
    if isdir fs q then Ok fs
    else if is_file fs q
    then Raise (os_error FileExistsError "[Errno 17] File exists" d)
    else
      let missing :=
        List.filter (λ p, negb (isdir fs p)) (q :: ancestors (String.length q) q) in
      if existsb (is_file fs) missing
      then Raise (os_error NotADirectoryError "[Errno 20] Not a directory" d)
      else if existsb (λ p, bool_decide (p ∈ locked fs)) missing
      then Raise (os_error PermissionError "[Errno 13] Permission denied" d)
      else Ok (mkFS (list_to_set missing ∪ dirs fs) (files fs) (locked fs)).

(** Opening [p] for writing and writing [content]: [open(p, "w")] followed by
    [write], and the file writing of [savefig]. *)
Definition write_file (p : string) (content : artifact) (fs : FileSystem)
    : result FileSystem :=
  if bool_decide (p = EmptyString)
  then Raise (os_error FileNotFoundError "[Errno 2] No such file or directory" p)
  else if isdir fs p
  then Raise (os_error IsADirectoryError "[Errno 21] Is a directory" p)
  else if is_file fs (dirname p)
  then Raise (os_error NotADirectoryError "[Errno 20] Not a directory" p)
  else if negb (isdir fs (dirname p))
  then Raise (os_error FileNotFoundError "[Errno 2] No such file or directory" p)
  else if bool_decide (p ∈ locked fs)
  then Raise (os_error PermissionError "[Errno 13] Permission denied" p)
  else Ok (mkFS (dirs fs) (<[p := content]> (files fs)) (locked fs)).

(** ** The pandas table *)

(** A [DataFrame]: the length of its index and its columns by name. *)
Record DataFrame := mkDF {
  nrows : nat;
  columns : gmap string column
}.

(** Every column of a table has the length of its index. *)
Definition wf_frame (df : DataFrame) : Prop :=
  ∀ k c, columns df !! k = Some c → col_len c = nrows df.

(** [df[k]] *)
Definition df_getitem (df : DataFrame) (k : string) : result column :=
  match columns df !! k with
  | Some c => Ok c
  | None => Raise (Exc KeyError ("'" +:+ k +:+ "'"))
  end.

(** What a column becomes when a table with an empty index takes the index
    of the values assigned to it: [n] missing values. *)
Definition nan_filled (n : nat) (c : column) : column :=
  FloatCol (replicate n nan).

(** [df[k] = values] for a list of values: the list must have the length of
    the index; a table whose index is empty takes the index of a non-empty
    list, its columns being refilled with missing values. *)
Definition df_setitem_list (df : DataFrame) (k : string) (values : column)
    : result DataFrame :=
  if (nrows df =? 0)%nat && negb (col_len values =? 0)%nat
  then Ok (mkDF (col_len values)
                (<[k := values]> (nan_filled (col_len values) <$> columns df)))
  else if (col_len values =? nrows df)%nat
  then Ok (mkDF (nrows df) (<[k := values]> (columns df)))
  else Raise (Exc ValueError "Length of values does not match length of index").

(** [df[k] = series] for a series computed from a column of [df]. *)
Definition df_setitem_series (df : DataFrame) (k : string) (values : column)
    : DataFrame :=
  mkDF (nrows df) (<[k := values]> (columns df)).

(** [series >= 0.5], elementwise. *)
Definition ge_half (c : column) : result (list bool) :=
  match c with
  | FloatCol l => Ok ((λ p, ge p half) <$> l)
  | IntCol l => Ok ((λ z, ge (of_Z z) half) <$> l)
  | StrCol _ =>
      Raise (Exc TypeError "'>=' not supported between instances of 'str' and 'float'")
  end.

(** [.astype(int)] of a boolean series. *)
Definition astype_int (l : list bool) : column :=
  IntCol ((λ b : bool, if b then 1 else 0) <$> l).

(** ** Configuration *)

Inductive cfg_value :=
| CfgStr (s : string)
| CfgInt (z : Z).

(** [config] is a dictionary of sections, each a dictionary of values. *)
Abbreviation Config := (gmap string (gmap string cfg_value)).

(** [d[k]] on a dictionary *)
Definition dict_getitem {V} (d : gmap string V) (k : string) : result V :=
  match d !! k with
  | Some v => Ok v
  | None => Raise (Exc KeyError ("'" +:+ k +:+ "'"))
  end.

Definition expected_str : exn :=
  Exc TypeError "expected str, bytes or os.PathLike object, not int".

(** [os.path.join(output_dir, name)] on a configuration value. *)
Definition os_path_join (output_dir : cfg_value) (name : string) : result string :=
  match output_dir with
  | CfgStr d => Ok (path_join d name)
  | CfgInt _ => Raise expected_str
  end.

(** ** Program state and the monad of effects

    What the module reads and changes: the table passed by the caller, the
    file system, the open figures of pyplot (the current one first) and the
    records sent to the root logger. *)

Inductive level := INFO | ERROR.

#[global] Instance level_eq_dec : EqDecision level.
Proof. solve_decision. Defined.

Record State := mkState {
  frame : DataFrame;
  fs : FileSystem;
  figures : list Figure;
  log : list (level * string)
}.

Definition M (A : Type) : Type := State → State * result A.

#[global] Instance M_ret : MRet M := λ A a s, (s, Ok a).

#[global] Instance M_bind : MBind M := λ A B k m s,
  match m s with
  | (s', Ok a) => k a s'
  | (s', Raise e) => (s', Raise e)
  end.

Definition lift {A} (r : result A) : M A := λ s, (s, r).

(** [try: body except Exception as e: handler(e)] *)
Definition try_except (body : M unit) (handler : exn → M unit) : M unit := λ s,
  match body s with
  | (s', Ok tt) => (s', Ok tt)
  | (s', Raise e) =>
      if is_Exception (exc_type e) then handler e s' else (s', Raise e)
  end.

Definition emit (lvl : level) (msg : string) : M unit := λ s,
  (mkState (frame s) (fs s) (figures s) (log s ++ [(lvl, msg)]), Ok tt).

Definition logging_info : string → M unit := emit INFO.
Definition logging_error : string → M unit := emit ERROR.

(** *** Table *)

Definition getitem (k : string) : M column := λ s, (s, df_getitem (frame s) k).

Definition setitem_list (k : string) (values : column) : M unit := λ s,
  match df_setitem_list (frame s) k values with
  | Ok df => (mkState df (fs s) (figures s) (log s), Ok tt)
  | Raise e => (s, Raise e)
  end.

Definition setitem_series (k : string) (values : column) : M unit := λ s,
  (mkState (df_setitem_series (frame s) k values) (fs s) (figures s) (log s), Ok tt).

(** *** Files *)

Definition with_fs (op : FileSystem → result FileSystem) : M unit := λ s,
  match op (fs s) with
  | Ok fs' => (mkState (frame s) fs' (figures s) (log s), Ok tt)
  | Raise e => (s, Raise e)
  end.

Definition os_makedirs (output_dir : cfg_value) : M unit :=
  match output_dir with
  | CfgStr d => with_fs (makedirs d)
  | CfgInt _ => lift (Raise expected_str)
  end.

(** [with open(path, "w") as f: f.write(report)] *)
Definition write_text (path : string) (r : report) : M unit :=
  with_fs (write_file path (Text r)).

(** *** pyplot

    [figures] lists the open figures, the current one first. *)

(** [plt.figure()], and the [plt.subplots()] of [ConfusionMatrixDisplay.plot]:
    a new, empty figure becomes the current one. *)
Definition plt_figure : M unit := λ s,
  (mkState (frame s) (fs s) ([] :: figures s) (log s), Ok tt).

(** [plt.gcf()]: the current figure, created when no figure is open. *)
Definition gcf (figs : list Figure) : list Figure :=
  match figs with
  | [] => [[]]
  | _ => figs
  end.

(** Drawing on the current figure. *)
Definition draw (a : artist) : M unit := λ s,
  match gcf (figures s) with
  | fig :: rest => (mkState (frame s) (fs s) ((fig ++ [a]) :: rest) (log s), Ok tt)
  | [] => (s, Ok tt)
  end.

Definition plt_title (text : string) : M unit := draw (Title text).
Definition plt_xlabel (text : string) : M unit := draw (XLabel text).
Definition plt_ylabel (text : string) : M unit := draw (YLabel text).
Definition plt_legend (loc : string) : M unit := draw (Legend loc).

Definition plt_plot (xs ys : list float) (color : string) (lw : Z)
    (linestyle : string) (label : option legend_label) : M unit :=
  draw (Line xs ys color lw linestyle label).

(** [plt.savefig(path)]: the current figure is written to [path]. *)
Definition plt_savefig (path : string) : M unit := λ s,
  let figs := gcf (figures s) in
  match write_file path (Png (default [] (head figs))) (fs s) with
  | Ok fs' => (mkState (frame s) fs' figs (log s), Ok tt)
  | Raise e => (mkState (frame s) (fs s) figs (log s), Raise e)
  end.

(** [plt.close()]: the current figure is closed. *)
Definition plt_close : M unit := λ s,
  (mkState (frame s) (fs s) (tail (figures s)) (log s), Ok tt).

(** [ConfusionMatrixDisplay(confusion_matrix=cm, display_labels=...)] *)
Record ConfusionMatrixDisplay := mkDisplay {
  disp_cm : list (list Z);
  display_labels : option (list string)
}.

(** [disp.plot(cmap=...)]: opens a figure, then draws the matrix with one tick
    label per class ([0 .. n-1] when no display labels are given). An empty
    matrix and a number of labels that is not the number of classes are
    refused once the figure is open. *)
Definition disp_plot (disp : ConfusionMatrixDisplay) (cmap : string) : M unit :=
  plt_figure;;
  let n := length (disp_cm disp) in
  let ticks := default (pretty <$> seqZ 0 (Z.of_nat n)) (display_labels disp) in
  if (n =? 0)%nat
  then lift (Raise (Exc ValueError
         "zero-size array to reduction operation maximum which has no identity"))
  else if negb (length ticks =? n)%nat
  then lift (Raise (Exc ValueError
         "The number of FixedLocator locations does not match the number of labels"))
  else draw (Heatmap (disp_cm disp) ticks cmap).

(** ** The module [visual_results] *)

(** [confusion_matrix] and [classification_report] applied to columns. *)
Definition sk_confusion_matrix (y_true y_pred : column)
    (labels : option (list Z)) : result (list (list Z)) :=
  a ← as_labels y_true; b ← as_labels y_pred; confusion_matrix a b labels.

Definition sk_classification_report (y_true y_pred : column)
    (labels : option (list Z)) (target_names : option (list string))
    : result report :=
  a ← as_labels y_true; b ← as_labels y_pred;
  classification_report a b labels target_names.

Definition sk_roc_curve (y_true y_score : column)
    : result (list float * list float * list float) :=
  a ← as_labels y_true; b ← as_scores y_score; roc_curve a b.

Definition sk_precision_recall_curve (y_true y_score : column)
    : result (list float * list float * list float) :=
  a ← as_labels y_true; b ← as_scores y_score; precision_recall_curve a b.

Definition sk_average_precision_score (y_true y_score : column) : result float :=
  a ← as_labels y_true; b ← as_scores y_score; average_precision_score a b.

(** Lines 80-90: the matrix and its display. *)
Definition confusion_matrix_display (true_labels predicted_labels : column)
    : result ConfusionMatrixDisplay :=
  unique_labels ← unique_concat true_labels predicted_labels;
  match unique_labels with
  | [u] =>
      cm ← sk_confusion_matrix true_labels predicted_labels (Some [u]);
      Ok (mkDisplay cm (Some [pretty u]))
  | _ =>
      cm ← sk_confusion_matrix true_labels predicted_labels None;
      Ok (mkDisplay cm None)
  end.

Definition plot_confusion_matrix_body (true_labels predicted_labels : column)
    (output_dir : cfg_value) : M unit :=
  disp ← lift (confusion_matrix_display true_labels predicted_labels);
  disp_plot disp "Blues";;
  plt_title "Confusion Matrix";;
  plot_path ← lift (os_path_join output_dir "confusion_matrix.png");
  plt_savefig plot_path;;
  plt_close;;
  logging_info ("Confusion matrix saved to " +:+ plot_path +:+ ".").

Definition plot_confusion_matrix (true_labels predicted_labels : column)
    (output_dir : cfg_value) : M unit :=
  try_except
    (plot_confusion_matrix_body true_labels predicted_labels output_dir)
    (λ e, logging_error ("Failed to generate confusion matrix: " +:+ exc_str e)).

(** Lines 104-113: the report. *)
Definition classification_report_of (true_labels predicted_labels : column)
    : result report :=
  unique_labels ← unique_concat true_labels predicted_labels;
  match unique_labels with
  | [u] =>
      sk_classification_report true_labels predicted_labels
        (Some [u]) (Some [pretty u])
  | _ => sk_classification_report true_labels predicted_labels None None
  end.

Definition generate_classification_report_body
    (true_labels predicted_labels : column) (output_dir : cfg_value) : M unit :=
  report ← lift (classification_report_of true_labels predicted_labels);
  report_file ← lift (os_path_join output_dir "classification_report.txt");
  write_text report_file report;;
  logging_info ("Classification report saved to " +:+ report_file +:+ ".").

Definition generate_classification_report
    (true_labels predicted_labels : column) (output_dir : cfg_value) : M unit :=
  try_except
    (generate_classification_report_body true_labels predicted_labels output_dir)
    (λ e, logging_error
            ("Failed to generate classification report: " +:+ exc_str e)).

Definition plot_roc_curve_body (true_labels predicted_probabilities : column)
    (output_dir : cfg_value) : M unit :=
  '(fpr, tpr, _) ← lift (sk_roc_curve true_labels predicted_probabilities);
  roc_auc ← lift (auc fpr tpr);
  plt_figure;;
  plt_plot fpr tpr "darkorange" 2 "-" (Some (AucLabel roc_auc));;
  plt_plot [zero; one] [zero; one] "navy" 2 "--" None;;
  plt_xlabel "False Positive Rate";;
  plt_ylabel "True Positive Rate";;
  plt_title "Receiver Operating Characteristic";;
  plt_legend "lower right";;
  plot_path ← lift (os_path_join output_dir "roc_curve.png");
  plt_savefig plot_path;;
  plt_close;;
  logging_info ("ROC curve saved to " +:+ plot_path +:+ ".").

Definition plot_roc_curve (true_labels predicted_probabilities : column)
    (output_dir : cfg_value) : M unit :=
  try_except
    (plot_roc_curve_body true_labels predicted_probabilities output_dir)
    (λ e, logging_error ("Failed to generate ROC curve: " +:+ exc_str e)).

Definition plot_precision_recall_curve_body
    (true_labels predicted_probabilities : column) (output_dir : cfg_value)
    : M unit :=
  '(precision, recall, _) ←
    lift (sk_precision_recall_curve true_labels predicted_probabilities);
  avg_precision ←
    lift (sk_average_precision_score true_labels predicted_probabilities);
  plt_figure;;
  plt_plot recall precision "b" 2 "-" (Some (AvgPrecisionLabel avg_precision));;
  plt_xlabel "Recall";;
  plt_ylabel "Precision";;
  plt_title "Precision-Recall Curve";;
  plt_legend "lower left";;
  plot_path ← lift (os_path_join output_dir "precision_recall_curve.png");
  plt_savefig plot_path;;
  plt_close;;
  logging_info ("Precision-Recall curve saved to " +:+ plot_path +:+ ".").

Definition plot_precision_recall_curve
    (true_labels predicted_probabilities : column) (output_dir : cfg_value)
    : M unit :=
  try_except
    (plot_precision_recall_curve_body true_labels predicted_probabilities output_dir)
    (λ e, logging_error
            ("Failed to generate Precision-Recall curve: " +:+ exc_str e)).

(** The four artifact generators, lines 60-70, and the closing log record. *)
Definition generate_artifacts (true_labels predicted_labels : column)
    (output_dir : cfg_value) : M unit :=
  plot_confusion_matrix true_labels predicted_labels output_dir;;
  generate_classification_report true_labels predicted_labels output_dir;;
  predicted_proba ← getitem "predicted_proba";
  plot_roc_curve true_labels predicted_proba output_dir;;
  predicted_proba ← getitem "predicted_proba";
  plot_precision_recall_curve true_labels predicted_proba output_dir;;
  logging_info "Evaluation reports and plots generated successfully.".

Section Reporter.

(** The model, the tokenizer and the device are opaque to this module. *)
Context {Model Tokenizer Device : Type}.

(** Modelled from the spec: [src.model_utils.predict_proba], the inference
    capability, is not part of the sources. It is "function(list of texts,
    model, tokenizer, device, config) → list of probabilities", an opaque
    blocking call: it returns a list of floats or raises, and does not
    touch the table, the files, the figures or the log. *)
Variable predict_proba :
  list pyval → Model → Tokenizer → Device → Config → result (list float).

(** Lines 35-58: predictions, predicted labels and the output directory. *)
Definition prepare (model : Model) (tokenizer : Tokenizer) (device : Device)
    (config : Config) : M (column * column * cfg_value) :=
  logging_info "Generating evaluation reports and plots...";;
  true_labels ← getitem "yo2";
  logging_info "Calculating predicted probabilities...";;
  texts ← getitem "full_text";
  proba ← lift (predict_proba (tolist texts) model tokenizer device config);
  setitem_list "predicted_proba" (FloatCol proba);;
  predicted_proba ← getitem "predicted_proba";
  above ← lift (ge_half predicted_proba);
  setitem_series "predicted_yo2" (astype_int above);;
  predicted_labels ← getitem "predicted_yo2";
  evaluation ← lift (dict_getitem config "evaluation");
  output_dir ← lift (dict_getitem evaluation "output_dir");
  os_makedirs output_dir;;
  mret (true_labels, predicted_labels, output_dir).

Definition generate_evaluation_reports_and_plots_body (model : Model)
    (tokenizer : Tokenizer) (device : Device) (config : Config) : M unit :=
  '(true_labels, predicted_labels, output_dir) ←
    prepare model tokenizer device config;
  generate_artifacts true_labels predicted_labels output_dir.

Definition generate_evaluation_reports_and_plots (model : Model)
    (tokenizer : Tokenizer) (device : Device) (config : Config) : M unit :=
  try_except
    (generate_evaluation_reports_and_plots_body model tokenizer device config)
    (λ e, logging_error
            ("Failed to generate evaluation reports and plots: " +:+ exc_str e)).

End Reporter.

(** * Specification vocabulary *)

(** A call that fails raises an instance of [Exception]. *)
Definition raises_Exception {A} (r : result A) : Prop :=
  ∀ e, r = Raise e → is_Exception (exc_type e) = true.

(** The state a computation ends in. *)
Definition exec {A} (m : M A) (s : State) : State := (m s).1.

(** What the [try] block of an artifact generator can do from state [s]:
    either it writes its file [name] under the output directory, leaves the
    table and the open figures as they were and logs one INFO record; or it
    raises an instance of [Exception], having left the files, the table and
    the log as they were, with at most one figure still open. *)
Inductive body_outcome (d : cfg_value) (name : string) (s : State)
  : State * result unit → Prop :=
| body_saved s' path a msg :
    os_path_join d name = Ok path →
    write_file path a (fs s) = Ok (fs s') →
    frame s' = frame s →
    figures s' = figures s →
    log s' = log s ++ [(INFO, msg)] →
    body_outcome d name s (s', Ok tt)
| body_raised s' e leaked :
    is_Exception (exc_type e) = true →
    fs s' = fs s →
    frame s' = frame s →
    log s' = log s →
    figures s' = leaked ++ figures s →
    (length leaked ≤ 1)%nat →
    body_outcome d name s (s', Raise e).

(** What an artifact generator does between two states. *)
Inductive generator_run (d : cfg_value) (name : string) (s s' : State) : Prop :=
| run_saved path a msg :
    os_path_join d name = Ok path →
    write_file path a (fs s) = Ok (fs s') →
    frame s' = frame s →
    figures s' = figures s →
    log s' = log s ++ [(INFO, msg)] →
    generator_run d name s s'
| run_failed msg leaked :
    fs s' = fs s →
    frame s' = frame s →
    figures s' = leaked ++ figures s →
    (length leaked ≤ 1)%nat →
    log s' = log s ++ [(ERROR, msg)] →
    generator_run d name s s'.

(** [op] is [try: body except Exception as e: logging.error(prefix + str(e))]
    and returns normally from every state: with the state of [body] when
    [body] returns, with one more ERROR record carrying the text of the
    exception when [body] raises. *)
Definition caught_and_logged (body op : M unit) (prefix : string) : Prop :=
  ∀ s, match body s with
       | (s1, Ok _) => op s = (s1, Ok tt)
       | (s1, Raise e) =>
           op s = (mkState (frame s1) (fs s1) (figures s1)
                     (log s1 ++ [(ERROR, prefix +:+ exc_str e)]), Ok tt)
       end.

(** The generator run from [s] to [s'] wrote the file [name] of directory
    [d], and the file is still there, unchanged, in state [final]. *)
Definition artifact_kept (d name : string) (s s' final : State) : Prop :=
  ∃ a, write_file (path_join d name) a (fs s) = Ok (fs s')
       ∧ files (fs final) !! path_join d name = Some a.

(** The predicted label column: [(proba >= 0.5).astype(int)]. *)
Definition predicted_labels_of (proba : list float) : column :=
  astype_int ((λ p, ge p half) <$> proba).

(** The two records [prepare] logs. *)
Definition started : list (level * string) :=
  [(INFO, "Generating evaluation reports and plots...");
   (INFO, "Calculating predicted probabilities...")].

(** No record of a list of log records is at the ERROR level. *)
Definition no_error (records : list (level * string)) : Prop :=
  Forall (λ r, r.1 = INFO) records.

(** The legend labels of the lines of a saved picture. *)
Definition legend_labels (a : option artifact) : list legend_label :=
  match a with
  | Some (Png fig) =>
      omap (λ x, match x with Line _ _ _ _ _ label => label | _ => None end) fig
  | _ => []
  end.

(** Between [s] and [s'] records were added to the log, none at the ERROR
    level. *)
Definition logs_no_error (s s' : State) : Prop :=
  ∃ added, log s' = log s ++ added ∧ no_error added.

(** ** Example inputs *)

(** The scenario of the specification: true labels [0,0,1,1] and predicted
    probabilities [0.1,0.4,0.6,0.9]. *)
Definition example_labels : list Z := [0; 0; 1; 1].

Definition example_proba : list float :=
  [decimal 1 10; decimal 4 10; decimal 6 10; decimal 9 10].

Definition example_frame : DataFrame :=
  mkDF 4 (<["yo2" := IntCol example_labels]>
            (<["full_text" := StrCol ["a"; "b"; "c"; "d"]]> ∅)).

Definition example_config : Config :=
  {[ "evaluation" := {[ "output_dir" := CfgStr "reports/eval" ]} ]}.

Definition empty_fs : FileSystem := mkFS ∅ ∅ ∅.

Definition example_state : State := mkState example_frame empty_fs [] [].

(** The same, with a report file that cannot be written (read-only). *)
Definition locked_report_state : State :=
  mkState example_frame
    (mkFS ∅ ∅ {["reports/eval/classification_report.txt"]}) [] [].

(** A table that already has a column named [predicted_proba], and an
    inference capability whose answer differs from it. *)
Definition stale_frame : DataFrame :=
  mkDF 2 (<["predicted_proba" := FloatCol [decimal 9 10; decimal 1 10]]>
            (<["yo2" := IntCol [0; 1]]>
               (<["full_text" := StrCol ["a"; "b"]]> ∅))).

Definition stale_state : State := mkState stale_frame empty_fs [] [].

Definition fresh_predict (texts : list pyval) (model tokenizer device : unit)
    (config : Config) : result (list float) :=
  Ok [decimal 1 10; decimal 9 10].

(** Probabilities around the threshold, and the table they belong to. *)
Definition boundary_proba : list float :=
  [decimal 49 100; half; decimal 51 100].

Definition boundary_state : State :=
  mkState (mkDF 3 (<["yo2" := IntCol [0; 1; 1]]>
                     (<["full_text" := StrCol ["a"; "b"; "c"]]> ∅)))
    empty_fs [] [].

Definition boundary_predict (texts : list pyval) (model tokenizer device : unit)
    (config : Config) : result (list float) :=
  Ok boundary_proba.

(** Floats that are no probabilities: NaN, the infinities, 1.5 and -0.5. *)
Definition wild_proba : list float :=
  [nan; inf; neg inf; decimal 3 2; decimal (-1) 2].

Definition wild_state : State :=
  mkState (mkDF 5 (<["yo2" := IntCol [0; 1; 0; 1; 0]]>
                     (<["full_text" := StrCol ["a"; "b"; "c"; "d"; "e"]]> ∅)))
    empty_fs [] [].

Definition wild_predict (texts : list pyval) (model tokenizer device : unit)
    (config : Config) : result (list float) :=
  Ok wild_proba.

(** A state without any directory, and one where the path of the ROC picture
    is taken by a directory. *)
Definition bare_state : State := mkState (mkDF 0 ∅) empty_fs [] [].

Definition occupied_state : State :=
  mkState example_frame (mkFS {["reports/eval/roc_curve.png"]} ∅ ∅) [] [].

(** An inference capability that answers with the example probabilities. *)
Definition example_predict (texts : list pyval) (model tokenizer device : unit)
    (config : Config) : result (list float) :=
  Ok example_proba.

(** An inference call interrupted from the keyboard, and one that exits the
    interpreter. *)
Definition interrupted_predict (texts : list pyval)
    (model tokenizer device : unit) (config : Config) : result (list float) :=
  Raise (Exc KeyboardInterrupt "").

Definition exiting_predict (texts : list pyval)
    (model tokenizer device : unit) (config : Config) : result (list float) :=
  Raise (Exc SystemExit "1").

(** * Properties *)

(** ** The calls of the module raise instances of [Exception] only

    Every failure of numpy, scikit-learn, pandas, pyplot and the file system
    in the model is a [ValueError], [TypeError], [KeyError] or an [OSError]. *)

Lemma rbind_raises {A B} (r : result A) (k : A → result B) :
  raises_Exception r → (∀ a, raises_Exception (k a)) →
  raises_Exception (r ≫= k).
Proof.
  intros Hr Hk e. destruct r as [a|e']; cbn.
  - apply Hk.
  - intros [= ->]. by apply Hr.
Qed.

Create HintDb py_exc.

Ltac raise_cases :=
  intros ? He; cbv beta delta [mbind result_bind rbind] in He;
  repeat (cbn in He; simplify_eq; try done;
          match type of He with
          | context [match ?x with _ => _ end] => destruct x eqn:?
          | context [if ?x then _ else _] => destruct x eqn:?
          end);
  cbn in He; simplify_eq; done.

Ltac prove_raises :=
  repeat first [ solve [auto with py_exc] | apply rbind_raises; [|intros ?] ];
  try raise_cases.

Lemma as_labels_raises c : raises_Exception (as_labels c).
Proof. unfold as_labels. raise_cases. Qed.

Lemma as_scores_raises c : raises_Exception (as_scores c).
Proof. unfold as_scores. raise_cases. Qed.

#[local] Hint Resolve as_labels_raises as_scores_raises : py_exc.

Lemma unique_concat_raises a b : raises_Exception (unique_concat a b).
Proof. unfold unique_concat. prove_raises. Qed.

Lemma confusion_matrix_raises a b l : raises_Exception (confusion_matrix a b l).
Proof. unfold confusion_matrix. raise_cases. Qed.

Lemma classification_report_raises a b l n :
  raises_Exception (classification_report a b l n).
Proof. unfold classification_report. raise_cases. Qed.

Lemma binary_clf_curve_raises a b : raises_Exception (binary_clf_curve a b).
Proof. unfold binary_clf_curve. raise_cases. Qed.

#[local] Hint Resolve unique_concat_raises confusion_matrix_raises
  classification_report_raises binary_clf_curve_raises : py_exc.

Lemma roc_curve_raises a b : raises_Exception (roc_curve a b).
Proof. unfold roc_curve. prove_raises. Qed.

Lemma precision_recall_curve_raises a b :
  raises_Exception (precision_recall_curve a b).
Proof. unfold precision_recall_curve. prove_raises. Qed.

#[local] Hint Resolve roc_curve_raises precision_recall_curve_raises : py_exc.

Lemma average_precision_score_raises a b :
  raises_Exception (average_precision_score a b).
Proof.
  unfold average_precision_score. apply rbind_raises; [auto with py_exc|].
  intros [[? ?] ?]. raise_cases.
Qed.

Lemma auc_raises a b : raises_Exception (auc a b).
Proof. unfold auc. raise_cases. Qed.

#[local] Hint Resolve average_precision_score_raises auc_raises : py_exc.

Lemma sk_confusion_matrix_raises a b l :
  raises_Exception (sk_confusion_matrix a b l).
Proof. unfold sk_confusion_matrix. prove_raises. Qed.

Lemma sk_classification_report_raises a b l n :
  raises_Exception (sk_classification_report a b l n).
Proof. unfold sk_classification_report. prove_raises. Qed.

Lemma sk_roc_curve_raises a b : raises_Exception (sk_roc_curve a b).
Proof. unfold sk_roc_curve. prove_raises. Qed.

Lemma sk_precision_recall_curve_raises a b :
  raises_Exception (sk_precision_recall_curve a b).
Proof. unfold sk_precision_recall_curve. prove_raises. Qed.

Lemma sk_average_precision_score_raises a b :
  raises_Exception (sk_average_precision_score a b).
Proof. unfold sk_average_precision_score. prove_raises. Qed.

#[local] Hint Resolve sk_confusion_matrix_raises sk_classification_report_raises
  sk_roc_curve_raises sk_precision_recall_curve_raises
  sk_average_precision_score_raises : py_exc.

Lemma confusion_matrix_display_raises a b :
  raises_Exception (confusion_matrix_display a b).
Proof.
  unfold confusion_matrix_display. apply rbind_raises; [auto with py_exc|].
  intros [|u [|]]; prove_raises.
Qed.

Lemma classification_report_of_raises a b :
  raises_Exception (classification_report_of a b).
Proof.
  unfold classification_report_of. apply rbind_raises; [auto with py_exc|].
  intros [|u [|]]; prove_raises.
Qed.

Lemma os_path_join_raises d n : raises_Exception (os_path_join d n).
Proof. unfold os_path_join. raise_cases. Qed.

Lemma write_file_raises p a f : raises_Exception (write_file p a f).
Proof. unfold write_file, os_error. raise_cases. Qed.

Lemma makedirs_raises d f : raises_Exception (makedirs d f).
Proof. unfold makedirs, os_error. raise_cases. Qed.

Lemma df_getitem_raises df k : raises_Exception (df_getitem df k).
Proof. unfold df_getitem. raise_cases. Qed.

Lemma df_setitem_list_raises df k v : raises_Exception (df_setitem_list df k v).
Proof. unfold df_setitem_list. raise_cases. Qed.

Lemma ge_half_raises c : raises_Exception (ge_half c).
Proof. unfold ge_half. raise_cases. Qed.

Lemma dict_getitem_raises {V} (d : gmap string V) k :
  raises_Exception (dict_getitem d k).
Proof. unfold dict_getitem. raise_cases. Qed.

#[local] Hint Resolve confusion_matrix_display_raises
  classification_report_of_raises os_path_join_raises write_file_raises
  makedirs_raises df_getitem_raises df_setitem_list_raises ge_half_raises
  dict_getitem_raises : py_exc.

(** ** The file system operations *)

Lemma write_file_Ok p a f f' :
  write_file p a f = Ok f' →
  f' = mkFS (dirs f) (<[p := a]> (files f)) (locked f).
Proof.
  unfold write_file. repeat case_match; intros; simplify_eq; done.
Qed.

Lemma makedirs_files d f f' :
  makedirs d f = Ok f' → files f' = files f ∧ locked f' = locked f.
Proof.
  unfold makedirs. repeat case_match; intros; simplify_eq; done.
Qed.

Lemma makedirs_dirs d f f' : makedirs d f = Ok f' → dirs f ⊆ dirs f'.
Proof.
  unfold makedirs. repeat case_match; intros; simplify_eq; cbn; set_solver.
Qed.

(** After [os.makedirs(d, exist_ok=True)] the directory exists. *)
Lemma makedirs_isdir d f f' :
  makedirs d f = Ok f' → isdir f' (normdir d) = true.
Proof.
  unfold makedirs. destruct (bool_decide (d = EmptyString)); [done|].
  destruct (isdir f (normdir d)) eqn:Hdir; [by intros [= <-]|].
  repeat case_match; intros; simplify_eq.
  unfold isdir at 1; cbn -[isdir List.filter]. apply orb_true_iff; right.
  apply bool_decide_eq_true.
  apply elem_of_union_l, elem_of_list_to_set, list_elem_of_In.
  rewrite Hdir. by left.
Qed.

(** A failed [os.makedirs] creates nothing. *)
Lemma with_fs_Raise op s s' e : with_fs op s = (s', Raise e) → s' = s.
Proof. unfold with_fs. case_match; intros; simplify_eq; done. Qed.

Lemma string_app_inv_head (p a b : string) : p +:+ a = p +:+ b → a = b.
Proof. induction p as [|c p IH]; cbn; [done|]. intros [= H]. auto. Qed.

(** [os.path.join] keeps distinct relative names distinct. *)
Lemma path_join_inj d (a b : string) :
  starts_with_slash a = false → starts_with_slash b = false →
  path_join d a = path_join d b → a = b.
Proof.
  unfold path_join. intros -> ->. case_match.
  - apply string_app_inv_head.
  - intros Heq. apply string_app_inv_head in Heq.
    by apply (string_app_inv_head "/") in Heq.
Qed.

(** *** Paths *)

Lemma has_slash_app a n : has_slash (a +:+ n) = has_slash a || has_slash n.
Proof. induction a as [|c a IH]; simpl; [done|]. by rewrite IH, orb_assoc. Qed.

Lemma head_of_no_slash n : has_slash n = false → head_of n = EmptyString.
Proof. destruct n as [|c n]; [done|]. intros Hn. cbn [head_of]. by rewrite Hn. Qed.

Lemma head_of_app a n : has_slash n = false → head_of (a +:+ n) = head_of a.
Proof.
  intros Hn. induction a as [|c a IH].
  - by apply head_of_no_slash.
  - change (String c a +:+ n) with (String c (a +:+ n)). cbn [head_of].
    change (has_slash (String c (a +:+ n))) with (is_slash c || has_slash (a +:+ n)).
    change (has_slash (String c a)) with (is_slash c || has_slash a).
    rewrite has_slash_app, Hn, orb_false_r.
    destruct (is_slash c || has_slash a); [by rewrite IH|done].
Qed.

Lemma ends_with_slash_has a : ends_with_slash a = true → has_slash a = true.
Proof.
  induction a as [|c a IH]; [done|].
  change (has_slash (String c a)) with (is_slash c || has_slash a).
  destruct a as [|c' a].
  - cbn. by intros ->.
  - change (ends_with_slash (String c (String c' a)))
      with (ends_with_slash (String c' a)).
    intros H. rewrite (IH H). apply orb_true_r.
Qed.

Lemma head_of_ends_with_slash a : ends_with_slash a = true → head_of a = a.
Proof.
  induction a as [|c a IH]; [done|]. intros H.
  cbn [head_of]. rewrite (ends_with_slash_has _ H).
  destruct a as [|c' a]; [done|]. f_equal. by apply IH.
Qed.

Lemma ends_with_slash_snoc a : ends_with_slash (a +:+ "/") = true.
Proof.
  induction a as [|c a IH]; [done|].
  change (String c a +:+ "/") with (String c (a +:+ "/")).
  destruct (a +:+ "/") as [|c' r] eqn:E; [by destruct a|]. exact IH.
Qed.

Lemma all_slash_ends a :
  a ≠ EmptyString → all_slash a = true → ends_with_slash a = true.
Proof.
  induction a as [|c a IH]; [done|]. intros _.
  change (all_slash (String c a)) with (is_slash c && all_slash a).
  intros [Hc Ha]%andb_true_iff.
  destruct a as [|c' a]; [done|]. by apply IH.
Qed.

Lemma all_slash_app a b : all_slash (a +:+ b) = all_slash a && all_slash b.
Proof. induction a as [|c a IH]; simpl; [done|]. by rewrite IH, andb_assoc. Qed.

Lemma not_ends_not_all a :
  a ≠ EmptyString → ends_with_slash a = false → all_slash a = false.
Proof.
  intros Hne He. destruct (all_slash a) eqn:E; [|done].
  apply all_slash_ends in E; [congruence|done].
Qed.

Lemma rstrip_slash_id a : ends_with_slash a = false → rstrip_slash a = a.
Proof.
  induction a as [|c a IH]; [done|]. intros H. cbn [rstrip_slash].
  rewrite not_ends_not_all by done.
  f_equal. destruct a as [|c' a]; [done|]. by apply IH.
Qed.

Lemma rstrip_slash_snoc a :
  ends_with_slash a = false → rstrip_slash (a +:+ "/") = a.
Proof.
  induction a as [|c a IH]; [done|]. intros H.
  change (String c a +:+ "/") with (String c (a +:+ "/")). cbn [rstrip_slash].
  change (String c (a +:+ "/")) with (String c a +:+ "/").
  rewrite all_slash_app, not_ends_not_all by done. cbn [andb].
  f_equal. destruct a as [|c' a].
  - done.
  - by apply IH.
Qed.

Lemma string_app_assoc (a b c : string) : (a +:+ b) +:+ c = a +:+ (b +:+ c).
Proof.
  induction a as [|x a IH]; [done|].
  change (String x ((a +:+ b) +:+ c) = String x (a +:+ (b +:+ c))).
  by f_equal.
Qed.

Lemma dirname_path_join d n :
  has_slash n = false → dirname (path_join d n) = normdir d.
Proof.
  intros Hn. unfold path_join, dirname.
  assert (starts_with_slash n = false) as ->.
  { destruct n as [|c n]; [done|]. cbn in *. by apply orb_false_iff in Hn as [-> _]. }
  destruct (bool_decide (d = EmptyString)) eqn:Hd.
  { apply bool_decide_eq_true in Hd as ->. cbn [orb].
    by rewrite (head_of_app EmptyString n Hn). }
  apply bool_decide_eq_false in Hd. cbn [orb].
  destruct (ends_with_slash d) eqn:He.
  - by rewrite head_of_app, head_of_ends_with_slash.
  - rewrite <- string_app_assoc, head_of_app by done.
    rewrite head_of_ends_with_slash by apply ends_with_slash_snoc.
    unfold normdir. rewrite all_slash_app, not_ends_not_all by done.
    cbn [andb]. by rewrite rstrip_slash_snoc, rstrip_slash_id.
Qed.

(** After [os.makedirs(d, exist_ok=True)], a file of [d] can be written
    unless its path is a directory or is locked. *)
Lemma write_after_makedirs d name a f f0 :
  makedirs d f = Ok f0 →
  has_slash name = false →
  is_file f (normdir d) = false →
  isdir f0 (path_join d name) = false →
  path_join d name ∉ locked f →
  write_file (path_join d name) a f0
  = Ok (mkFS (dirs f0) (<[path_join d name := a]> (files f)) (locked f)).
Proof.
  intros Hmk Hname Hfile Hdir Hlock. unfold write_file.
  destruct (makedirs_files _ _ _ Hmk) as [Hf Hl].
  rewrite bool_decide_eq_false_2.
  2:{ intros Hp. rewrite Hp in Hdir. done. }
  rewrite Hdir, dirname_path_join by done.
  unfold is_file in *. rewrite Hf, Hfile.
  rewrite (makedirs_isdir _ _ _ Hmk). cbn [negb].
  by rewrite Hl, bool_decide_eq_false_2.
Qed.

(** ** Checks of the model on known values *)

Example float_constants :
  one = of_Z 1 ∧ two = of_Z 2 ∧ half = decimal 1 2 ∧ ge half half = true
  ∧ ge nan half = false ∧ lt nan half = false.
Proof. repeat split; by vm_compute. Qed.

Example posix_paths :
  path_join "reports/eval" "roc_curve.png" = "reports/eval/roc_curve.png"
  ∧ path_join "reports/eval/" "roc_curve.png" = "reports/eval/roc_curve.png"
  ∧ path_join "" "roc_curve.png" = "roc_curve.png"
  ∧ dirname "reports/eval/roc_curve.png" = "reports/eval"
  ∧ dirname "roc_curve.png" = ""
  ∧ dirname "/roc_curve.png" = "/"
  ∧ ancestors 12 "reports/eval" = ["reports"].
Proof. repeat split; by vm_compute. Qed.

(** The example of the scikit-learn documentation: labels [0,0,1,1] and
    scores [0.1,0.4,0.35,0.8] have an area under the ROC curve of 0.75; their
    precision-recall curve has the recalls [1, 1, 0.5, 0.5, 0] and the
    thresholds [0.1, 0.35, 0.4, 0.8]. *)
Example documented_curves :
  let y := [0; 0; 1; 1] in
  let scores := [decimal 1 10; decimal 4 10; decimal 35 100; decimal 8 10] in
  (roc_curve y scores ≫= λ '(fpr, tpr, _), auc fpr tpr) = Ok (decimal 3 4)
  ∧ (precision_recall_curve y scores ≫= λ '(_, recall, _), Ok recall)
    = Ok [one; one; half; half; zero]
  ∧ (precision_recall_curve y scores ≫= λ '(_, _, thresholds), Ok thresholds)
    = Ok [decimal 1 10; decimal 35 100; decimal 4 10; decimal 8 10].
Proof. cbn zeta. repeat split; by vm_compute. Qed.

(** A single class in the true labels: the ROC curve is computed, with NaN
    rates, and the positive label must be one of the known encodings. *)
Example single_class_curves :
  (roc_curve [0; 0] [decimal 1 10; decimal 4 10] ≫= λ '(_, tpr, _), Ok tpr)
  = Ok [nan; nan; nan]
  ∧ is_Ok (roc_curve [5; 5] [decimal 1 10; decimal 4 10]) = false
  ∧ is_Ok (roc_curve [0; 1; 2] [decimal 1 10; decimal 4 10; half]) = false.
Proof. repeat split; by vm_compute. Qed.

(** ** The artifact generators, one by one *)

Ltac step_body :=
  cbv beta delta [mbind M_bind lift mret M_ret];
  cbn -[write_file os_path_join];
  match goal with
  | |- body_outcome _ _ _ (match ?r with _ => _ end) =>
      let e := fresh "e" in
      let Hr := fresh "Hr" in
      destruct r as [?|e] eqn:Hr
  | |- body_outcome _ _ _ (let (_, _) := match ?r with _ => _ end in _) =>
      let e := fresh "e" in
      let Hr := fresh "Hr" in
      destruct r as [?|e] eqn:Hr
  end.

Ltac body_raises leaked_figures :=
  match goal with
  | Hr : _ = Raise ?e |- body_outcome _ _ _ (_, Raise ?e) =>
      apply body_raised with (leaked := leaked_figures); cbn; auto;
      solve [ eapply confusion_matrix_display_raises; eauto
            | eapply classification_report_of_raises; eauto
            | eapply sk_roc_curve_raises; eauto
            | eapply auc_raises; eauto
            | eapply sk_precision_recall_curve_raises; eauto
            | eapply sk_average_precision_score_raises; eauto
            | eapply os_path_join_raises; eauto
            | eapply write_file_raises; eauto ]
  end.

Lemma plot_confusion_matrix_body_outcome t p d s :
  body_outcome d "confusion_matrix.png" s (plot_confusion_matrix_body t p d s).
Proof.
  unfold plot_confusion_matrix_body.
  step_body; [|body_raises (@nil Figure)].
  unfold disp_plot, plt_figure.
  cbv beta delta [mbind M_bind lift mret M_ret]. cbn -[write_file os_path_join].
  destruct (length (disp_cm a) =? 0)%nat; cbn -[write_file os_path_join].
  { by apply body_raised with (leaked := [[]]). }
  destruct (negb _); cbn -[write_file os_path_join].
  { by apply body_raised with (leaked := [[]]). }
  destruct (os_path_join d "confusion_matrix.png") as [path|e] eqn:Hjoin;
    cbn -[write_file].
  2:{ eapply body_raised with (leaked := [_]); cbn; auto.
      by eapply os_path_join_raises. }
  unfold plt_savefig; cbn -[write_file].
  match goal with
  | |- context [write_file ?q ?a ?f] => destruct (write_file q a f) as [f'|e] eqn:Hw
  end; cbn.
  - eapply body_saved; cbn; eauto.
  - eapply body_raised with (leaked := [_]); cbn; auto.
    by eapply write_file_raises.
Qed.

Lemma generate_classification_report_body_outcome t p d s :
  body_outcome d "classification_report.txt" s
    (generate_classification_report_body t p d s).
Proof.
  unfold generate_classification_report_body.
  step_body; [|body_raises (@nil Figure)].
  step_body; [|body_raises (@nil Figure)].
  unfold write_text, with_fs.
  match goal with
  | |- context [write_file ?q ?a ?f] => destruct (write_file q a f) as [f'|e] eqn:Hw
  end; cbn.
  - eapply body_saved; cbn; eauto.
  - body_raises (@nil Figure).
Qed.

Lemma plot_roc_curve_body_outcome t p d s :
  body_outcome d "roc_curve.png" s (plot_roc_curve_body t p d s).
Proof.
  unfold plot_roc_curve_body.
  cbv beta delta [mbind M_bind lift].
  destruct (sk_roc_curve t p) as [[[fpr tpr] thr]|e] eqn:Hroc;
    [|body_raises (@nil Figure)].
  destruct (auc fpr tpr) as [roc_auc|e] eqn:Hauc; [|body_raises (@nil Figure)].
  cbn -[write_file os_path_join].
  destruct (os_path_join d "roc_curve.png") as [path|e] eqn:Hjoin;
    cbn -[write_file].
  2:{ eapply body_raised with (leaked := [_]); cbn; auto.
      by eapply os_path_join_raises. }
  unfold plt_savefig; cbn -[write_file].
  match goal with
  | |- context [write_file ?q ?a ?f] => destruct (write_file q a f) as [f'|e] eqn:Hw
  end; cbn.
  - eapply body_saved; cbn; eauto.
  - eapply body_raised with (leaked := [_]); cbn; auto.
    by eapply write_file_raises.
Qed.

Lemma plot_precision_recall_curve_body_outcome t p d s :
  body_outcome d "precision_recall_curve.png" s
    (plot_precision_recall_curve_body t p d s).
Proof.
  unfold plot_precision_recall_curve_body.
  cbv beta delta [mbind M_bind lift].
  destruct (sk_precision_recall_curve t p) as [[[precision recall] thr]|e] eqn:Hpr;
    [|body_raises (@nil Figure)].
  destruct (sk_average_precision_score t p) as [ap|e] eqn:Hap;
    [|body_raises (@nil Figure)].
  cbn -[write_file os_path_join].
  destruct (os_path_join d "precision_recall_curve.png") as [path|e] eqn:Hjoin;
    cbn -[write_file].
  2:{ eapply body_raised with (leaked := [_]); cbn; auto.
      by eapply os_path_join_raises. }
  unfold plt_savefig; cbn -[write_file].
  match goal with
  | |- context [write_file ?q ?a ?f] => destruct (write_file q a f) as [f'|e] eqn:Hw
  end; cbn.
  - eapply body_saved; cbn; eauto.
  - eapply body_raised with (leaked := [_]); cbn; auto.
    by eapply write_file_raises.
Qed.

(** A [try] block with these outcomes, wrapped in the handler that logs the
    failure, always returns. *)
Lemma try_except_run body prefix d name s :
  body_outcome d name s (body s) →
  ∃ s', try_except body (λ e, logging_error (prefix +:+ exc_str e)) s = (s', Ok tt)
        ∧ generator_run d name s s'
        ∧ (is_Ok (body s).2 → s' = (body s).1).
Proof.
  unfold try_except. intros Hout. inversion Hout as [s' path a msg ? ? ? ? ? Hb|s' e leaked Hexc ? ? ? ? ? Hb].
  - eexists; split; [done|]. split; [|done]. by eapply run_saved.
  - rewrite Hexc. eexists; split; [done|]. split; [|done].
    eapply run_failed with (leaked := leaked); cbn; eauto. by f_equal.
Qed.

Lemma plot_confusion_matrix_run t p d s :
  ∃ s', plot_confusion_matrix t p d s = (s', Ok tt)
        ∧ generator_run d "confusion_matrix.png" s s'
        ∧ (is_Ok (plot_confusion_matrix_body t p d s).2 →
           s' = (plot_confusion_matrix_body t p d s).1).
Proof. apply try_except_run, plot_confusion_matrix_body_outcome. Qed.

Lemma generate_classification_report_run t p d s :
  ∃ s', generate_classification_report t p d s = (s', Ok tt)
        ∧ generator_run d "classification_report.txt" s s'
        ∧ (is_Ok (generate_classification_report_body t p d s).2 →
           s' = (generate_classification_report_body t p d s).1).
Proof. apply try_except_run, generate_classification_report_body_outcome. Qed.

Lemma plot_roc_curve_run t p d s :
  ∃ s', plot_roc_curve t p d s = (s', Ok tt)
        ∧ generator_run d "roc_curve.png" s s'
        ∧ (is_Ok (plot_roc_curve_body t p d s).2 →
           s' = (plot_roc_curve_body t p d s).1).
Proof. apply try_except_run, plot_roc_curve_body_outcome. Qed.

Lemma plot_precision_recall_curve_run t p d s :
  ∃ s', plot_precision_recall_curve t p d s = (s', Ok tt)
        ∧ generator_run d "precision_recall_curve.png" s s'
        ∧ (is_Ok (plot_precision_recall_curve_body t p d s).2 →
           s' = (plot_precision_recall_curve_body t p d s).1).
Proof. apply try_except_run, plot_precision_recall_curve_body_outcome. Qed.

(** The handler of a generator catches whatever its [try] block raises. *)
Lemma body_outcome_caught body prefix d name :
  (∀ s, body_outcome d name s (body s)) →
  caught_and_logged body
    (try_except body (λ e, logging_error (prefix +:+ exc_str e))) prefix.
Proof.
  intros Hout s. specialize (Hout s). unfold try_except.
  destruct (body s) as [s1 [[]|e]]; [done|].
  inversion Hout as [|? ? ? Hexc]; subst. by rewrite Hexc.
Qed.

(** ** Predictions and the output directory *)

Section Prepare.

Context {Model Tokenizer Device : Type}.
Variable predict_proba :
  list pyval → Model → Tokenizer → Device → Config → result (list float).
Variables (model : Model) (tokenizer : Tokenizer) (device : Device).
Variable config : Config.

Lemma getitem_predicted_proba df k values df1 :
  df_setitem_list df k values = Ok df1 → df_getitem df1 k = Ok values.
Proof.
  unfold df_setitem_list, df_getitem.
  repeat case_match; intros; simplify_map_eq; done.
Qed.

(** When [prepare] returns, every step of lines 35-58 went through. *)
Lemma prepare_Ok s s' tl pl od :
  prepare predict_proba model tokenizer device config s = (s', Ok (tl, pl, od)) →
  ∃ texts proba df1 evaluation d,
    df_getitem (frame s) "yo2" = Ok tl
    ∧ df_getitem (frame s) "full_text" = Ok texts
    ∧ predict_proba (tolist texts) model tokenizer device config = Ok proba
    ∧ df_setitem_list (frame s) "predicted_proba" (FloatCol proba) = Ok df1
    ∧ pl = predicted_labels_of proba
    ∧ frame s' = df_setitem_series df1 "predicted_yo2" pl
    ∧ config !! "evaluation" = Some evaluation
    ∧ evaluation !! "output_dir" = Some od
    ∧ od = CfgStr d
    ∧ makedirs d (fs s) = Ok (fs s')
    ∧ figures s' = figures s
    ∧ log s' = log s ++ started.
Proof.
  unfold prepare, getitem, setitem_list, setitem_series, logging_info, emit.
  cbv beta delta [mbind M_bind lift mret M_ret]. cbn -[df_setitem_list makedirs].
  destruct (df_getitem (frame s) "yo2") as [tl'|] eqn:Hyo2; [|done].
  destruct (df_getitem (frame s) "full_text") as [texts|] eqn:Htext; [|done].
  destruct (predict_proba _ _ _ _ _) as [proba|] eqn:Hpp; [|done].
  destruct (df_setitem_list _ _ _) as [df1|] eqn:Hset; [|done].
  cbn -[df_setitem_list makedirs].
  rewrite (getitem_predicted_proba _ _ _ _ Hset). cbn -[makedirs].
  unfold df_getitem at 1. cbn -[makedirs]. rewrite lookup_insert_eq.
  unfold dict_getitem.
  destruct (config !! "evaluation") as [evaluation|] eqn:Hev; [|done].
  destruct (evaluation !! "output_dir") as [[d|z]|] eqn:Hod; [|done..].
  unfold os_makedirs, with_fs. cbn -[makedirs].
  destruct (makedirs d (fs s)) as [f'|] eqn:Hmk; [|done].
  intros [= <- <- <- <-]. exists texts, proba, df1, evaluation, d.
  cbn. rewrite <- app_assoc. done.
Qed.

(** When [prepare] raises, no directory was created, no file written and no
    figure opened; what was logged is the first or the first two records of
    [started]; and the exception is an instance of [Exception] unless the
    inference call raised it. *)
Lemma prepare_Raise s s' e :
  prepare predict_proba model tokenizer device config s = (s', Raise e) →
  fs s' = fs s
  ∧ figures s' = figures s
  ∧ (∃ n, log s' = log s ++ take n started)
  ∧ (is_Exception (exc_type e) = true
     ∨ ∃ texts, df_getitem (frame s) "full_text" = Ok texts
                ∧ predict_proba (tolist texts) model tokenizer device config
                  = Raise e).
Proof.
  unfold prepare, getitem, setitem_list, setitem_series, logging_info, emit.
  cbv beta delta [mbind M_bind lift mret M_ret]. cbn -[df_setitem_list makedirs].
  assert (Hone : ∀ l : list (level * string),
            ∃ n, l ++ [(INFO, "Generating evaluation reports and plots...")]
                 = l ++ take n started).
  { intros l. by exists 1%nat. }
  assert (Htwo : ∀ l : list (level * string),
            ∃ n, (l ++ [(INFO, "Generating evaluation reports and plots...")])
                   ++ [(INFO, "Calculating predicted probabilities...")]
                 = l ++ take n started).
  { intros l. exists 2%nat. by rewrite <- app_assoc. }
  destruct (df_getitem (frame s) "yo2") as [tl'|e1] eqn:Hyo2.
  2:{ intros [= <- <-]. cbn. repeat split; auto.
      left. by eapply df_getitem_raises. }
  destruct (df_getitem (frame s) "full_text") as [texts|e1] eqn:Htext.
  2:{ intros [= <- <-]. cbn. repeat split; auto.
      left. by eapply df_getitem_raises. }
  destruct (predict_proba _ _ _ _ _) as [proba|e1] eqn:Hpp.
  2:{ intros [= <- <-]. cbn. repeat split; auto. right. eauto. }
  destruct (df_setitem_list _ _ _) as [df1|e1] eqn:Hset.
  2:{ intros [= <- <-]. cbn. repeat split; auto.
      left. by eapply df_setitem_list_raises. }
  cbn -[df_setitem_list makedirs].
  rewrite (getitem_predicted_proba _ _ _ _ Hset). cbn -[makedirs].
  unfold df_getitem at 1. cbn -[makedirs]. rewrite lookup_insert_eq.
  destruct (dict_getitem config "evaluation") as [evaluation|e1] eqn:Hev.
  2:{ intros [= <- <-]. cbn. repeat split; auto.
      left. by eapply dict_getitem_raises. }
  destruct (dict_getitem evaluation "output_dir") as [[d|z]|e1] eqn:Hod.
  3:{ intros [= <- <-]. cbn. repeat split; auto.
      left. by eapply dict_getitem_raises. }
  2:{ intros [= <- <-]. cbn. repeat split; auto. }
  unfold os_makedirs, with_fs. cbn -[makedirs].
  destruct (makedirs d (fs s)) as [f'|e1] eqn:Hmk; [done|].
  intros [= <- <-]. cbn. repeat split; auto.
  left. by eapply makedirs_raises.
Qed.

(** Whatever happens after the two assignments of lines 42-51, the table holds
    the predictions and the labels derived from them. *)
Lemma prepare_frame s tl texts proba df1 :
  df_getitem (frame s) "yo2" = Ok tl →
  df_getitem (frame s) "full_text" = Ok texts →
  predict_proba (tolist texts) model tokenizer device config = Ok proba →
  df_setitem_list (frame s) "predicted_proba" (FloatCol proba) = Ok df1 →
  frame (exec (prepare predict_proba model tokenizer device config) s)
  = df_setitem_series df1 "predicted_yo2" (predicted_labels_of proba).
Proof.
  intros Hyo2 Htext Hpp Hset.
  unfold exec, prepare, getitem, setitem_list, setitem_series, logging_info, emit.
  cbv beta delta [mbind M_bind lift mret M_ret]. cbn -[df_setitem_list makedirs].
  rewrite Hyo2, Htext, Hpp, Hset. cbn -[df_setitem_list makedirs].
  rewrite (getitem_predicted_proba _ _ _ _ Hset). cbn -[makedirs].
  unfold df_getitem at 1. cbn -[makedirs]. rewrite lookup_insert_eq.
  destruct (dict_getitem config "evaluation") as [evaluation|e1]; [|done].
  destruct (dict_getitem evaluation "output_dir") as [[d|z]|e1]; [|done..].
  unfold os_makedirs, with_fs. cbn -[makedirs].
  by destruct (makedirs d (fs s)).
Qed.

End Prepare.

(** ** What a generator leaves untouched *)

Lemma generator_run_frame d name s s' :
  generator_run d name s s' → frame s' = frame s.
Proof. by intros []. Qed.

Lemma generator_run_dirs d name s s' :
  generator_run d name s s' →
  dirs (fs s') = dirs (fs s) ∧ locked (fs s') = locked (fs s).
Proof.
  intros [path a msg _ Hw _ _ _|msg leaked -> _ _ _ _]; [|done].
  apply write_file_Ok in Hw. by rewrite Hw.
Qed.

Lemma generator_run_files_other d name s s' p :
  generator_run (CfgStr d) name s s' → p ≠ path_join d name →
  files (fs s') !! p = files (fs s) !! p.
Proof.
  intros [path a msg Hj Hw _ _ _|msg leaked -> _ _ _ _] Hne; [|done].
  apply write_file_Ok in Hw. rewrite Hw. cbn in *. simplify_eq.
  by rewrite lookup_insert_ne.
Qed.

Lemma generator_run_log d name s s' :
  generator_run d name s s' → ∃ r, log s' = log s ++ [r].
Proof. intros []; eauto. Qed.

(** A generator whose record is at the INFO level wrote its file. *)
Lemma generator_run_saved d name s s' msg :
  generator_run (CfgStr d) name s s' → log s' = log s ++ [(INFO, msg)] →
  ∃ a, fs s' = mkFS (dirs (fs s)) (<[path_join d name := a]> (files (fs s)))
                (locked (fs s))
       ∧ figures s' = figures s.
Proof.
  intros [path a msg' Hj Hw _ Hfig _|msg' leaked _ _ _ _ Hlog] Hinfo.
  - apply write_file_Ok in Hw. cbn in Hj. simplify_eq. eauto.
  - rewrite Hlog in Hinfo. by apply app_inv_head in Hinfo.
Qed.

(** ** The four generators in sequence *)

Lemma generate_artifacts_run tl pl od pc s0 :
  df_getitem (frame s0) "predicted_proba" = Ok pc →
  let s1 := exec (plot_confusion_matrix tl pl od) s0 in
  let s2 := exec (generate_classification_report tl pl od) s1 in
  let s3 := exec (plot_roc_curve tl pc od) s2 in
  let s4 := exec (plot_precision_recall_curve tl pc od) s3 in
  generate_artifacts tl pl od s0
  = (exec (logging_info "Evaluation reports and plots generated successfully.") s4,
     Ok tt)
  ∧ generator_run od "confusion_matrix.png" s0 s1
  ∧ generator_run od "classification_report.txt" s1 s2
  ∧ generator_run od "roc_curve.png" s2 s3
  ∧ generator_run od "precision_recall_curve.png" s3 s4.
Proof.
  intros Hpc. cbn zeta. unfold exec.
  destruct (plot_confusion_matrix_run tl pl od s0) as (s1 & E1 & R1 & _).
  rewrite E1; cbn [fst].
  destruct (generate_classification_report_run tl pl od s1) as (s2 & E2 & R2 & _).
  rewrite E2; cbn [fst].
  destruct (plot_roc_curve_run tl pc od s2) as (s3 & E3 & R3 & _).
  rewrite E3; cbn [fst].
  destruct (plot_precision_recall_curve_run tl pc od s3) as (s4 & E4 & R4 & _).
  rewrite E4; cbn [fst].
  split; [|done].
  unfold generate_artifacts. cbv beta delta [mbind M_bind].
  rewrite E1, E2. unfold getitem.
  rewrite (generator_run_frame _ _ _ _ R2), (generator_run_frame _ _ _ _ R1), Hpc.
  rewrite E3.
  rewrite (generator_run_frame _ _ _ _ R3), (generator_run_frame _ _ _ _ R2),
    (generator_run_frame _ _ _ _ R1), Hpc.
  by rewrite E4.
Qed.

(** ** The whole operation *)

Section Run.

Context {Model Tokenizer Device : Type}.
Variable predict_proba :
  list pyval → Model → Tokenizer → Device → Config → result (list float).
Variables (model : Model) (tokenizer : Tokenizer) (device : Device).
Variable config : Config.

Abbreviation run_body :=
  (generate_evaluation_reports_and_plots_body predict_proba model tokenizer
     device config).
Abbreviation prep := (prepare predict_proba model tokenizer device config).

Lemma run_body_cases s :
  match prep s with
  | (s0, Ok (tl, pl, od)) => run_body s = generate_artifacts tl pl od s0
  | (s0, Raise e) => run_body s = (s0, Raise e)
  end.
Proof.
  unfold generate_evaluation_reports_and_plots_body.
  cbv beta delta [mbind M_bind].
  by destruct (prepare _ _ _ _ _ s) as [s0 [[[tl pl] od]|e]].
Qed.

Lemma prepare_Ok_proba s s0 tl pl od :
  prep s = (s0, Ok (tl, pl, od)) →
  ∃ proba, df_getitem (frame s0) "predicted_proba" = Ok (FloatCol proba)
           ∧ pl = predicted_labels_of proba.
Proof.
  intros Hp. apply prepare_Ok in Hp
    as (texts & proba & df1 & ev & d & _ & _ & _ & Hset & Hpl & Hfr & _).
  exists proba. split; [|done]. rewrite Hfr.
  apply getitem_predicted_proba in Hset. revert Hset.
  unfold df_getitem, df_setitem_series; cbn. by rewrite lookup_insert_ne.
Qed.

(** Past [prepare], the [try] block of the operation returns. *)
Lemma run_body_after_prepare s s0 tl pl od :
  prep s = (s0, Ok (tl, pl, od)) →
  ∃ s', run_body s = (s', Ok tt).
Proof.
  intros Hp. pose proof (run_body_cases s) as Hb. rewrite Hp in Hb.
  destruct (prepare_Ok_proba _ _ _ _ _ Hp) as (proba & Hpc & _).
  destruct (generate_artifacts_run tl pl od _ s0 Hpc) as (Hga & _).
  rewrite Hb, Hga. eauto.
Qed.

(** The [try] block of the operation raises what [prepare] raises. *)
Lemma run_body_Raise s s' e :
  run_body s = (s', Raise e) → prep s = (s', Raise e).
Proof.
  intros Hb. pose proof (run_body_cases s) as Hc.
  destruct (prep s) as [s0 [[[tl pl] od]|e0]] eqn:Hp.
  - destruct (run_body_after_prepare _ _ _ _ _ Hp) as (s1 & Hs1). congruence.
  - congruence.
Qed.

End Run.

(** ** Successful runs *)

(** A generator whose record is at the INFO level went through its [try]
    block. *)
Lemma try_except_INFO body prefix d name s msg :
  body_outcome d name s (body s) →
  log (exec (try_except body (λ e, logging_error (prefix +:+ exc_str e))) s)
  = log s ++ [(INFO, msg)] →
  is_Ok (body s).2.
Proof.
  unfold exec, try_except. intros Hout.
  destruct (body s) as [s1 [[]|e]]; [done|].
  inversion Hout as [|? ? ? Hexc ? ? Hlog]; subst. rewrite Hexc. cbn.
  rewrite Hlog. intros Heq. by apply app_inv_head in Heq.
Qed.

Lemma log_exec_logging_info msg s :
  log (exec (logging_info msg) s) = log s ++ [(INFO, msg)].
Proof. done. Qed.

Lemma no_error_app l1 l2 : no_error (l1 ++ l2) ↔ no_error l1 ∧ no_error l2.
Proof. apply Forall_app. Qed.

Section Successful.

Context {Model Tokenizer Device : Type}.
Variable predict_proba :
  list pyval → Model → Tokenizer → Device → Config → result (list float).
Variables (model : Model) (tokenizer : Tokenizer) (device : Device).
Variable config : Config.

(** A run that returns normally and logs no error went through [prepare] and
    through the [try] block of each of the four generators. *)
Lemma successful_run_inv s s' :
  generate_evaluation_reports_and_plots predict_proba model tokenizer device
    config s = (s', Ok tt) →
  logs_no_error s s' →
  ∃ s0 tl d proba,
    prepare predict_proba model tokenizer device config s
    = (s0, Ok (tl, predicted_labels_of proba, CfgStr d))
    ∧ df_getitem (frame s0) "predicted_proba" = Ok (FloatCol proba)
    ∧ let pl := predicted_labels_of proba in
      let pc := FloatCol proba in
      let od := CfgStr d in
      let s1 := exec (plot_confusion_matrix tl pl od) s0 in
      let s2 := exec (generate_classification_report tl pl od) s1 in
      let s3 := exec (plot_roc_curve tl pc od) s2 in
      let s4 := exec (plot_precision_recall_curve tl pc od) s3 in
      s' = exec (logging_info
                   "Evaluation reports and plots generated successfully.") s4
      ∧ is_Ok (plot_confusion_matrix_body tl pl od s0).2
      ∧ is_Ok (generate_classification_report_body tl pl od s1).2
      ∧ is_Ok (plot_roc_curve_body tl pc od s2).2
      ∧ is_Ok (plot_precision_recall_curve_body tl pc od s3).2.
Proof.
  intros Hrun (added & Hlog & Hinfo).
  pose proof (run_body_cases predict_proba model tokenizer device config s) as Hb.
  unfold generate_evaluation_reports_and_plots, try_except in Hrun.
  destruct (prepare predict_proba model tokenizer device config s)
    as [s0 [[[tl pl] od]|e]] eqn:Hp.
  2:{ rewrite Hb in Hrun.
      destruct (prepare_Raise _ _ _ _ _ _ _ _ Hp) as (_ & _ & (n & Hn) & _).
      destruct (is_Exception (exc_type e)); [|done].
      injection Hrun as <-. cbn in Hlog. rewrite Hn, <- app_assoc in Hlog.
      apply app_inv_head in Hlog. subst added.
      apply no_error_app in Hinfo as [_ Hinfo]. by inversion Hinfo. }
  destruct (prepare_Ok_proba _ _ _ _ _ _ _ _ _ _ Hp) as (proba & Hpc & ->).
  destruct (prepare_Ok _ _ _ _ _ _ _ _ _ _ Hp)
    as (texts & proba' & df1 & ev & d & _ & _ & _ & _ & _ & _ & _ & _ & Hod & _
        & _ & Hl0).
  subst od. exists s0, tl, d, proba. split; [done|]. split; [done|].
  destruct (generate_artifacts_run tl (predicted_labels_of proba) (CfgStr d) _ s0 Hpc)
    as (Hga & R1 & R2 & R3 & R4).
  cbn zeta in *. rewrite Hb, Hga in Hrun. injection Hrun as <-.
  destruct (generator_run_log _ _ _ _ R1) as (r1 & L1).
  destruct (generator_run_log _ _ _ _ R2) as (r2 & L2).
  destruct (generator_run_log _ _ _ _ R3) as (r3 & L3).
  destruct (generator_run_log _ _ _ _ R4) as (r4 & L4).
  assert (Hadded : added = started ++ [r1; r2; r3; r4;
            (INFO, "Evaluation reports and plots generated successfully.")]).
  { apply (app_inv_head (log s)). rewrite <- Hlog, log_exec_logging_info.
    rewrite L4, L3, L2, L1, Hl0. by rewrite <- !app_assoc. }
  subst added. apply no_error_app in Hinfo as [_ Hinfo].
  apply Forall_cons in Hinfo as [I1 Hinfo]. apply Forall_cons in Hinfo as [I2 Hinfo].
  apply Forall_cons in Hinfo as [I3 Hinfo]. apply Forall_cons in Hinfo as [I4 _].
  destruct r1 as [? m1], r2 as [? m2], r3 as [? m3], r4 as [? m4]; cbn in *; subst.
  split; [done|]. repeat split.
  - eapply try_except_INFO; [apply plot_confusion_matrix_body_outcome|exact L1].
  - eapply try_except_INFO;
      [apply generate_classification_report_body_outcome|exact L2].
  - eapply try_except_INFO; [apply plot_roc_curve_body_outcome|exact L3].
  - eapply try_except_INFO;
      [apply plot_precision_recall_curve_body_outcome|exact L4].
Qed.

End Successful.

(** * The claims *)

(** ** Error handling *)

Section ErrorHandling.

Context {Model Tokenizer Device : Type}.
Variable predict_proba :
  list pyval → Model → Tokenizer → Device → Config → result (list float).
Variables (model : Model) (tokenizer : Tokenizer) (device : Device).
Variable config : Config.

(** C1, as amended. Each of the four sub-operations returns normally from
    every state and for every argument: whatever its [try] block raises is
    caught and logged at the ERROR level with the text of the exception.
    The operation [generate_evaluation_reports_and_plots] does the same
    provided the inference capability raises instances of [Exception] only:
    [except Exception] does not catch a [KeyboardInterrupt] or a
    [SystemExit]. *)
Theorem exceptions_caught_and_logged :
  (∀ texts e, predict_proba texts model tokenizer device config = Raise e →
              is_Exception (exc_type e) = true) →
  caught_and_logged
    (generate_evaluation_reports_and_plots_body predict_proba model tokenizer
       device config)
    (generate_evaluation_reports_and_plots predict_proba model tokenizer
       device config)
    "Failed to generate evaluation reports and plots: "
  ∧ (∀ t p d, caught_and_logged (plot_confusion_matrix_body t p d)
                (plot_confusion_matrix t p d)
                "Failed to generate confusion matrix: ")
  ∧ (∀ t p d, caught_and_logged (generate_classification_report_body t p d)
                (generate_classification_report t p d)
                "Failed to generate classification report: ")
  ∧ (∀ t p d, caught_and_logged (plot_roc_curve_body t p d)
                (plot_roc_curve t p d)
                "Failed to generate ROC curve: ")
  ∧ (∀ t p d, caught_and_logged (plot_precision_recall_curve_body t p d)
                (plot_precision_recall_curve t p d)
                "Failed to generate Precision-Recall curve: ").
Proof.
  intros Hpp. split; [|repeat split].
  - intros s. unfold generate_evaluation_reports_and_plots, try_except.
    destruct (generate_evaluation_reports_and_plots_body _ _ _ _ _ s)
      as [s1 [[]|e]] eqn:Hb; [done|].
    apply run_body_Raise, prepare_Raise in Hb
      as (_ & _ & _ & [He|(texts & _ & He)]).
    + by rewrite He.
    + by rewrite (Hpp _ _ He).
  - intros t p d. eapply body_outcome_caught.
    intros s. apply plot_confusion_matrix_body_outcome.
  - intros t p d. eapply body_outcome_caught.
    intros s. apply generate_classification_report_body_outcome.
  - intros t p d. eapply body_outcome_caught.
    intros s. apply plot_roc_curve_body_outcome.
  - intros t p d. eapply body_outcome_caught.
    intros s. apply plot_precision_recall_curve_body_outcome.
Qed.

End ErrorHandling.

(** The amended C1 at the example inputs. *)
Lemma exceptions_caught_and_logged_example :
  (∀ texts e, example_predict texts tt tt tt example_config = Raise e →
              is_Exception (exc_type e) = true)
  ∧ caught_and_logged
      (generate_evaluation_reports_and_plots_body example_predict tt tt tt
         example_config)
      (generate_evaluation_reports_and_plots example_predict tt tt tt
         example_config)
      "Failed to generate evaluation reports and plots: ".
Proof.
  assert (H : ∀ texts e, example_predict texts tt tt tt example_config = Raise e →
                         is_Exception (exc_type e) = true)
    by (intros texts e; discriminate).
  split; [exact H|].
  exact (proj1 (exceptions_caught_and_logged example_predict tt tt tt
                  example_config H)).
Defined.

(** C1 as stated fails: a [KeyboardInterrupt] raised by the inference call
    leaves [generate_evaluation_reports_and_plots], and nothing is logged at
    the ERROR level. *)
Lemma keyboard_interrupt_propagates :
  let r := generate_evaluation_reports_and_plots interrupted_predict tt tt tt
             example_config example_state in
  r.2 = Raise (Exc KeyboardInterrupt "") ∧ log r.1 = started
  ∧ ¬ ∃ s', r = (s', Ok tt).
Proof.
  cbn zeta. split; [by vm_compute|]. split; [by vm_compute|].
  intros [s' Hs']. apply (f_equal snd) in Hs'. vm_compute in Hs'. discriminate.
Qed.

Section EarlyFailure.

Context {Model Tokenizer Device : Type}.
Variable predict_proba :
  list pyval → Model → Tokenizer → Device → Config → result (list float).
Variables (model : Model) (tokenizer : Tokenizer) (device : Device).
Variable config : Config.

(** C10, as amended. When a step of lines 35-58 (reading the columns, the
    inference call, the two assignments, reading the configuration, creating
    the directory) raises, the file system and the open figures are those of
    the start: no directory was created and no artifact written. The state
    the operation ends in is the state at the failing step: no sub-operation
    ran, the log holds one or both records of [started] and, when the
    exception is an instance of [Exception], its ERROR record, the operation
    then returning normally. An exception that is not an instance of
    [Exception] leaves the operation instead, unlogged. *)
Theorem early_failure_creates_nothing s s1 e :
  prepare predict_proba model tokenizer device config s = (s1, Raise e) →
  fs s1 = fs s
  ∧ figures s1 = figures s
  ∧ (∃ n, log s1 = log s ++ take n started)
  ∧ generate_evaluation_reports_and_plots predict_proba model tokenizer device
      config s
    = if is_Exception (exc_type e)
      then (mkState (frame s1) (fs s1) (figures s1)
              (log s1 ++ [(ERROR, "Failed to generate evaluation reports and plots: "
                                  +:+ exc_str e)]), Ok tt)
      else (s1, Raise e).
Proof.
  intros Hp. destruct (prepare_Raise _ _ _ _ _ _ _ _ Hp) as (Hfs & Hfig & Hlog & _).
  repeat split; try done.
  unfold generate_evaluation_reports_and_plots, try_except.
  pose proof (run_body_cases predict_proba model tokenizer device config s) as Hb.
  rewrite Hp in Hb. rewrite Hb. by destruct (is_Exception _).
Qed.

End EarlyFailure.

(** The amended C10 on a table without the true-label column. *)
Lemma early_failure_missing_column :
  let s := mkState (mkDF 0 ∅) empty_fs [] [] in
  let s1 := mkState (mkDF 0 ∅) empty_fs []
              [(INFO, "Generating evaluation reports and plots...")] in
  prepare example_predict tt tt tt example_config s
  = (s1, Raise (Exc KeyError "'yo2'"))
  ∧ generate_evaluation_reports_and_plots example_predict tt tt tt
      example_config s
    = (mkState (mkDF 0 ∅) empty_fs []
         [(INFO, "Generating evaluation reports and plots...");
          (ERROR, "Failed to generate evaluation reports and plots: 'yo2'")],
       Ok tt).
Proof.
  cbn zeta.
  assert (H : prepare example_predict tt tt tt example_config
                (mkState (mkDF 0 ∅) empty_fs [] [])
              = (mkState (mkDF 0 ∅) empty_fs []
                   [(INFO, "Generating evaluation reports and plots...")],
                 Raise (Exc KeyError "'yo2'")))
    by (vm_compute; reflexivity).
  split; [exact H|].
  exact (proj2 (proj2 (proj2
    (early_failure_creates_nothing example_predict tt tt tt example_config
       _ _ _ H)))).
Defined.

(** C10 as stated fails: when the inference call raises [SystemExit], a step
    before directory creation has failed, yet the operation does not return
    normally and logs no error. *)
Lemma system_exit_propagates :
  let r := generate_evaluation_reports_and_plots exiting_predict tt tt tt
             example_config example_state in
  (prepare exiting_predict tt tt tt example_config example_state).2
  = Raise (Exc SystemExit "1")
  ∧ r.2 = Raise (Exc SystemExit "1")
  ∧ log r.1 = started.
Proof. cbn zeta. repeat split; by vm_compute. Qed.

(** A generator whose [try] block returned has written its file. *)
Lemma body_Ok_written body prefix d name s :
  body_outcome (CfgStr d) name s (body s) →
  is_Ok (body s).2 →
  ∃ a, write_file (path_join d name) a (fs s)
       = Ok (fs (exec (try_except body
                         (λ e, logging_error (prefix +:+ exc_str e))) s))
       ∧ files (fs (exec (try_except body
                            (λ e, logging_error (prefix +:+ exc_str e))) s))
           !! path_join d name = Some a.
Proof.
  unfold exec, try_except. intros Hout Hok.
  destruct (body s) as [s' [[]|e]]; [|done].
  inversion Hout as [? path a msg Hj Hw|]; subst.
  cbn in Hj. simplify_eq. exists a. split; [done|].
  cbn [fst]. apply write_file_Ok in Hw. rewrite Hw. cbn. apply lookup_insert_eq.
Qed.

Section Isolation.

Context {Model Tokenizer Device : Type}.
Variable predict_proba :
  list pyval → Model → Tokenizer → Device → Config → result (list float).
Variables (model : Model) (tokenizer : Tokenizer) (device : Device).
Variable config : Config.

(** C4. Once the output directory is there, the operation is the four
    generators run one after the other, whichever of them fail, followed by
    the closing record; and every generator whose [try] block did not raise
    has written its file, which is still there at the end. *)
Theorem failure_isolation s s0 tl pl od :
  prepare predict_proba model tokenizer device config s = (s0, Ok (tl, pl, od)) →
  ∃ pc d,
    df_getitem (frame s0) "predicted_proba" = Ok pc ∧ od = CfgStr d ∧
    let s1 := exec (plot_confusion_matrix tl pl od) s0 in
    let s2 := exec (generate_classification_report tl pl od) s1 in
    let s3 := exec (plot_roc_curve tl pc od) s2 in
    let s4 := exec (plot_precision_recall_curve tl pc od) s3 in
    generate_evaluation_reports_and_plots predict_proba model tokenizer device
      config s
    = (exec (logging_info "Evaluation reports and plots generated successfully.")
         s4, Ok tt)
    ∧ (is_Ok (plot_confusion_matrix_body tl pl od s0).2 →
       artifact_kept d "confusion_matrix.png" s0 s1 s4)
    ∧ (is_Ok (generate_classification_report_body tl pl od s1).2 →
       artifact_kept d "classification_report.txt" s1 s2 s4)
    ∧ (is_Ok (plot_roc_curve_body tl pc od s2).2 →
       artifact_kept d "roc_curve.png" s2 s3 s4)
    ∧ (is_Ok (plot_precision_recall_curve_body tl pc od s3).2 →
       artifact_kept d "precision_recall_curve.png" s3 s4 s4).
Proof.
  intros Hp.
  destruct (prepare_Ok_proba _ _ _ _ _ _ _ _ _ _ Hp) as (proba & Hpc & _).
  destruct (prepare_Ok _ _ _ _ _ _ _ _ _ _ Hp)
    as (texts & proba' & df1 & ev & d & _ & _ & _ & _ & _ & _ & _ & _ & Hod & _).
  subst od. exists (FloatCol proba), d. split; [done|]. split; [done|].
  destruct (generate_artifacts_run tl pl (CfgStr d) _ s0 Hpc)
    as (Hga & R1 & R2 & R3 & R4).
  cbn zeta in *.
  set (s1 := exec (plot_confusion_matrix tl pl (CfgStr d)) s0) in *.
  set (s2 := exec (generate_classification_report tl pl (CfgStr d)) s1) in *.
  set (s3 := exec (plot_roc_curve tl (FloatCol proba) (CfgStr d)) s2) in *.
  set (s4 := exec (plot_precision_recall_curve tl (FloatCol proba) (CfgStr d)) s3)
    in *.
  assert (Hne : ∀ a b : string, starts_with_slash a = false →
                  starts_with_slash b = false → a ≠ b →
                  path_join d a ≠ path_join d b).
  { intros a b Ha Hb Hab Heq. by apply Hab, (path_join_inj d). }
  split.
  { unfold generate_evaluation_reports_and_plots, try_except.
    pose proof (run_body_cases predict_proba model tokenizer device config s) as Hb.
    rewrite Hp in Hb. by rewrite Hb, Hga. }
  repeat split.
  - intros Hok.
    destruct (body_Ok_written _ "Failed to generate confusion matrix: " d _ s0
                (plot_confusion_matrix_body_outcome tl pl (CfgStr d) s0) Hok)
      as (a & Hw & Hf).
    exists a. split; [done|].
    rewrite (generator_run_files_other _ _ _ _ _ R4) by (by apply Hne).
    rewrite (generator_run_files_other _ _ _ _ _ R3) by (by apply Hne).
    by rewrite (generator_run_files_other _ _ _ _ _ R2) by (by apply Hne).
  - intros Hok.
    destruct (body_Ok_written _ "Failed to generate classification report: " d _ s1
                (generate_classification_report_body_outcome tl pl (CfgStr d) s1) Hok)
      as (a & Hw & Hf).
    exists a. split; [done|].
    rewrite (generator_run_files_other _ _ _ _ _ R4) by (by apply Hne).
    by rewrite (generator_run_files_other _ _ _ _ _ R3) by (by apply Hne).
  - intros Hok.
    destruct (body_Ok_written _ "Failed to generate ROC curve: " d _ s2
                (plot_roc_curve_body_outcome tl (FloatCol proba) (CfgStr d) s2) Hok)
      as (a & Hw & Hf).
    exists a. split; [done|].
    by rewrite (generator_run_files_other _ _ _ _ _ R4) by (by apply Hne).
  - intros Hok.
    destruct (body_Ok_written _ "Failed to generate Precision-Recall curve: " d _ s3
                (plot_precision_recall_curve_body_outcome tl (FloatCol proba)
                   (CfgStr d) s3) Hok)
      as (a & Hw & Hf).
    by exists a.
Qed.

End Isolation.

(** C4 at the example inputs with a report file that cannot be written: the
    report generator fails, the three plots are produced all the same. *)
Lemma failure_isolation_locked_report :
  let s0 := exec (prepare example_predict tt tt tt example_config)
              locked_report_state in
  let tl := IntCol example_labels in
  let pl := IntCol example_labels in
  let od := CfgStr "reports/eval" in
  prepare example_predict tt tt tt example_config locked_report_state
  = (s0, Ok (tl, pl, od))
  ∧ ∃ pc d,
      df_getitem (frame s0) "predicted_proba" = Ok pc ∧ od = CfgStr d ∧
      let s1 := exec (plot_confusion_matrix tl pl od) s0 in
      let s2 := exec (generate_classification_report tl pl od) s1 in
      let s3 := exec (plot_roc_curve tl pc od) s2 in
      let s4 := exec (plot_precision_recall_curve tl pc od) s3 in
      generate_evaluation_reports_and_plots example_predict tt tt tt
        example_config locked_report_state
      = (exec (logging_info "Evaluation reports and plots generated successfully.")
           s4, Ok tt)
      ∧ (is_Ok (plot_confusion_matrix_body tl pl od s0).2 →
         artifact_kept d "confusion_matrix.png" s0 s1 s4)
      ∧ (is_Ok (generate_classification_report_body tl pl od s1).2 →
         artifact_kept d "classification_report.txt" s1 s2 s4)
      ∧ (is_Ok (plot_roc_curve_body tl pc od s2).2 →
         artifact_kept d "roc_curve.png" s2 s3 s4)
      ∧ (is_Ok (plot_precision_recall_curve_body tl pc od s3).2 →
         artifact_kept d "precision_recall_curve.png" s3 s4 s4).
Proof.
  cbn zeta.
  assert (H : prepare example_predict tt tt tt example_config locked_report_state
              = (exec (prepare example_predict tt tt tt example_config)
                   locked_report_state,
                 Ok (IntCol example_labels, IntCol example_labels,
                     CfgStr "reports/eval")))
    by (vm_compute; reflexivity).
  split; [exact H|].
  exact (failure_isolation example_predict tt tt tt example_config _ _ _ _ _ H).
Defined.

(** In that run the report is missing, its failure is logged, and the three
    plots are in the output directory. *)
Example locked_report_run :
  let s' := exec (generate_evaluation_reports_and_plots example_predict tt tt tt
                    example_config) locked_report_state in
  is_file (fs s') "reports/eval/confusion_matrix.png" = true
  ∧ is_file (fs s') "reports/eval/classification_report.txt" = false
  ∧ is_file (fs s') "reports/eval/roc_curve.png" = true
  ∧ is_file (fs s') "reports/eval/precision_recall_curve.png" = true
  ∧ (ERROR, "Failed to generate classification report: [Errno 13] Permission denied: 'reports/eval/classification_report.txt'")
    ∈ log s'.
Proof.
  cbn zeta. repeat split; try (by vm_compute).
  apply (bool_decide_unpack _). by vm_compute.
Qed.

(** ** Artifacts of a successful run *)

Section Artifacts.

Context {Model Tokenizer Device : Type}.
Variable predict_proba :
  list pyval → Model → Tokenizer → Device → Config → result (list float).
Variables (model : Model) (tokenizer : Tokenizer) (device : Device).
Variable config : Config.

(** C5. On a table with a true-label column of zeros and ones, both present,
    and a text column, a run that returns normally and logs no error has
    created the configured output directory [d] and has written the four
    files [confusion_matrix.png], [classification_report.txt],
    [roc_curve.png] and [precision_recall_curve.png] of [d]; these four
    writes are the only difference between the files before and after. *)
Theorem successful_run_writes_four_artifacts s s' labels texts evaluation d :
  columns (frame s) !! "yo2" = Some (IntCol labels) →
  columns (frame s) !! "full_text" = Some (StrCol texts) →
  Forall (λ y, y = 0 ∨ y = 1) labels → 0 ∈ labels → 1 ∈ labels →
  config !! "evaluation" = Some evaluation →
  evaluation !! "output_dir" = Some (CfgStr d) →
  generate_evaluation_reports_and_plots predict_proba model tokenizer device
    config s = (s', Ok tt) →
  logs_no_error s s' →
  ∃ fs0 cm report roc pr,
    makedirs d (fs s) = Ok fs0
    ∧ isdir (fs s') (normdir d) = true
    ∧ fs s'
      = mkFS (dirs fs0)
          (<[path_join d "precision_recall_curve.png" := pr]>
             (<[path_join d "roc_curve.png" := roc]>
                (<[path_join d "classification_report.txt" := report]>
                   (<[path_join d "confusion_matrix.png" := cm]>
                      (files (fs s))))))
          (locked (fs s)).
Proof.
  intros _ _ _ _ _ Hev Hod Hrun Hlog.
  destruct (successful_run_inv _ _ _ _ _ _ _ Hrun Hlog)
    as (s0 & tl & d' & proba & Hp & Hpc & Hs' & B1 & B2 & B3 & B4).
  destruct (prepare_Ok _ _ _ _ _ _ _ _ _ _ Hp)
    as (texts' & proba' & df1 & ev & d'' & _ & _ & _ & _ & _ & _ & Hev' & Hod'
        & Hd & Hmk & _).
  assert (d' = d) by congruence. assert (d'' = d) by congruence.
  subst d' d''. clear Hd Hev' Hod'. cbn zeta in *.
  destruct (body_Ok_written _ "Failed to generate confusion matrix: " d _ _
              (plot_confusion_matrix_body_outcome _ _ _ _) B1) as (cm & W1 & _).
  destruct (body_Ok_written _ "Failed to generate classification report: " d _ _
              (generate_classification_report_body_outcome _ _ _ _) B2)
    as (report & W2 & _).
  destruct (body_Ok_written _ "Failed to generate ROC curve: " d _ _
              (plot_roc_curve_body_outcome _ _ _ _) B3) as (roc & W3 & _).
  destruct (body_Ok_written _ "Failed to generate Precision-Recall curve: " d _ _
              (plot_precision_recall_curve_body_outcome _ _ _ _) B4)
    as (pr & W4 & _).
  fold (plot_confusion_matrix tl (predicted_labels_of proba) (CfgStr d)) in W1.
  fold (generate_classification_report tl (predicted_labels_of proba) (CfgStr d))
    in W2.
  fold (plot_roc_curve tl (FloatCol proba) (CfgStr d)) in W3.
  fold (plot_precision_recall_curve tl (FloatCol proba) (CfgStr d)) in W4.
  apply write_file_Ok in W1, W2, W3, W4.
  destruct (makedirs_files _ _ _ Hmk) as [Hf0 Hl0].
  exists (fs s0), cm, report, roc, pr. split; [done|].
  assert (Hfs : fs s' = mkFS (dirs (fs s0))
            (<[path_join d "precision_recall_curve.png" := pr]>
               (<[path_join d "roc_curve.png" := roc]>
                  (<[path_join d "classification_report.txt" := report]>
                     (<[path_join d "confusion_matrix.png" := cm]>
                        (files (fs s))))))
            (locked (fs s))).
  { rewrite Hs'. unfold exec at 1; cbn [fst logging_info emit fs].
    rewrite W4, W3, W2, W1. cbn. by rewrite Hf0, Hl0. }
  split; [|done].
  rewrite Hfs. apply makedirs_isdir in Hmk. revert Hmk. by unfold isdir.
Qed.

End Artifacts.

(** C5 at the example inputs. *)
Lemma successful_run_writes_four_artifacts_example :
  let s' := exec (generate_evaluation_reports_and_plots example_predict tt tt tt
                    example_config) example_state in
  generate_evaluation_reports_and_plots example_predict tt tt tt example_config
    example_state = (s', Ok tt)
  ∧ logs_no_error example_state s'
  ∧ ∃ fs0 cm report roc pr,
      makedirs "reports/eval" (fs example_state) = Ok fs0
      ∧ isdir (fs s') (normdir "reports/eval") = true
      ∧ fs s'
        = mkFS (dirs fs0)
            (<[path_join "reports/eval" "precision_recall_curve.png" := pr]>
               (<[path_join "reports/eval" "roc_curve.png" := roc]>
                  (<[path_join "reports/eval" "classification_report.txt" := report]>
                     (<[path_join "reports/eval" "confusion_matrix.png" := cm]>
                        (files (fs example_state))))))
            (locked (fs example_state)).
Proof.
  cbn zeta.
  assert (Hrun : generate_evaluation_reports_and_plots example_predict tt tt tt
                   example_config example_state
                 = (exec (generate_evaluation_reports_and_plots example_predict
                            tt tt tt example_config) example_state, Ok tt))
    by (vm_compute; reflexivity).
  assert (Hlog : logs_no_error example_state
                   (exec (generate_evaluation_reports_and_plots example_predict
                            tt tt tt example_config) example_state)).
  { eexists. split; [vm_compute; reflexivity|]. by repeat constructor. }
  split; [exact Hrun|]. split; [exact Hlog|].
  apply (successful_run_writes_four_artifacts example_predict tt tt tt
           example_config example_state _ example_labels ["a"; "b"; "c"; "d"]
           {[ "output_dir" := CfgStr "reports/eval" ]} "reports/eval").
  - by vm_compute.
  - by vm_compute.
  - unfold example_labels. repeat apply Forall_cons_2; auto using Forall_nil_2.
  - apply (bool_decide_unpack _). by vm_compute.
  - apply (bool_decide_unpack _). by vm_compute.
  - by vm_compute.
  - by vm_compute.
  - exact Hrun.
  - exact Hlog.
Defined.

(** ** The table after a run *)

Lemma plot_roc_curve_body_Ok t p d s :
  is_Ok (plot_roc_curve_body t p d s).2 → ∃ r, sk_roc_curve t p = Ok r.
Proof.
  unfold plot_roc_curve_body. cbv beta delta [mbind M_bind lift].
  destruct (sk_roc_curve t p) as [r|e]; [eauto|done].
Qed.

Lemma sk_roc_curve_Ok t proba r :
  sk_roc_curve t (FloatCol proba) = Ok r →
  ∃ l, t = IntCol l ∧ length l = length proba.
Proof.
  unfold sk_roc_curve. destruct t as [l| |]; [|done..]. cbn.
  unfold roc_curve, binary_clf_curve. intros H. exists l. split; [done|].
  destruct (is_multiclass l); [done|].
  destruct (length l =? length proba)%nat eqn:Hlen; [|done].
  by apply Nat.eqb_eq.
Qed.

Section Frame.

Context {Model Tokenizer Device : Type}.
Variable predict_proba :
  list pyval → Model → Tokenizer → Device → Config → result (list float).
Variables (model : Model) (tokenizer : Tokenizer) (device : Device).
Variable config : Config.

(** C8, as amended. A run that returns normally and logs no error changes
    the table in two columns only, [predicted_proba] (the probabilities of
    the inference call) and [predicted_yo2] (the labels derived from them):
    the index is the same and every column of another name, the true-label
    and the text columns among them, is what it was. A column that was
    already named [predicted_proba] or [predicted_yo2] is overwritten. *)
Theorem successful_run_frame s s' :
  wf_frame (frame s) →
  generate_evaluation_reports_and_plots predict_proba model tokenizer device
    config s = (s', Ok tt) →
  logs_no_error s s' →
  ∃ proba,
    frame s'
    = mkDF (nrows (frame s))
        (<["predicted_yo2" := predicted_labels_of proba]>
           (<["predicted_proba" := FloatCol proba]> (columns (frame s))))
    ∧ (∀ k, k ≠ "predicted_proba" → k ≠ "predicted_yo2" →
            columns (frame s') !! k = columns (frame s) !! k)
    ∧ columns (frame s') !! "yo2" = columns (frame s) !! "yo2"
    ∧ columns (frame s') !! "full_text" = columns (frame s) !! "full_text".
Proof.
  intros Hwf Hrun Hlog.
  destruct (successful_run_inv _ _ _ _ _ _ _ Hrun Hlog)
    as (s0 & tl & d & proba & Hp & Hpc & Hs' & _ & _ & B3 & _).
  destruct (generate_artifacts_run tl (predicted_labels_of proba) (CfgStr d) _ s0 Hpc)
    as (_ & R1 & R2 & R3 & R4).
  cbn zeta in *.
  assert (Hfr : frame s' = frame s0).
  { rewrite Hs'. unfold exec at 1; cbn [fst logging_info emit frame].
    rewrite (generator_run_frame _ _ _ _ R4), (generator_run_frame _ _ _ _ R3),
      (generator_run_frame _ _ _ _ R2). apply (generator_run_frame _ _ _ _ R1). }
  destruct (prepare_Ok _ _ _ _ _ _ _ _ _ _ Hp)
    as (texts & proba' & df1 & ev & d' & Hyo2 & _ & _ & Hset & Hpl & Hfr0 & _).
  assert (proba' = proba) as ->.
  { apply getitem_predicted_proba in Hset. rewrite Hfr0 in Hpc. revert Hpc Hset.
    unfold df_getitem, df_setitem_series; cbn. rewrite lookup_insert_ne by done.
    destruct (columns df1 !! "predicted_proba"); congruence. }
  apply plot_roc_curve_body_Ok in B3 as (r & Hroc).
  apply sk_roc_curve_Ok in Hroc as (l & -> & Hlen).
  assert (Hrows : length l = nrows (frame s)).
  { revert Hyo2. unfold df_getitem.
    destruct (columns (frame s) !! "yo2") as [c|] eqn:Hc; [|done].
    intros [= ->]. apply (Hwf _ _ Hc). }
  assert (Hdf1 : df1 = mkDF (nrows (frame s))
                   (<["predicted_proba" := FloatCol proba]> (columns (frame s)))).
  { revert Hset. unfold df_setitem_list. cbn [col_len].
    rewrite <- Hlen, Hrows. rewrite Nat.eqb_refl.
    destruct (nrows (frame s)); cbn; congruence. }
  exists proba.
  assert (Heq : frame s'
    = mkDF (nrows (frame s))
        (<["predicted_yo2" := predicted_labels_of proba]>
           (<["predicted_proba" := FloatCol proba]> (columns (frame s))))).
  { rewrite Hfr, Hfr0, Hdf1. done. }
  split; [done|]. rewrite Heq; cbn.
  split; [|by rewrite !lookup_insert_ne].
  intros k Hk1 Hk2. by rewrite !lookup_insert_ne.
Qed.

End Frame.

(** The amended C8 at the example inputs. *)
Lemma successful_run_frame_example :
  let s' := exec (generate_evaluation_reports_and_plots example_predict tt tt tt
                    example_config) example_state in
  wf_frame (frame example_state)
  ∧ generate_evaluation_reports_and_plots example_predict tt tt tt example_config
      example_state = (s', Ok tt)
  ∧ logs_no_error example_state s'
  ∧ ∃ proba,
      frame s'
      = mkDF (nrows (frame example_state))
          (<["predicted_yo2" := predicted_labels_of proba]>
             (<["predicted_proba" := FloatCol proba]>
                (columns (frame example_state))))
      ∧ (∀ k, k ≠ "predicted_proba" → k ≠ "predicted_yo2" →
              columns (frame s') !! k = columns (frame example_state) !! k)
      ∧ columns (frame s') !! "yo2" = columns (frame example_state) !! "yo2"
      ∧ columns (frame s') !! "full_text"
        = columns (frame example_state) !! "full_text".
Proof.
  cbn zeta.
  assert (Hwf : wf_frame (frame example_state)).
  { intros k c. unfold example_state, example_frame; cbn.
    rewrite lookup_insert. case_decide; [by intros [= <-]|].
    rewrite lookup_insert. case_decide; [by intros [= <-]|].
    by rewrite lookup_empty. }
  assert (Hrun : generate_evaluation_reports_and_plots example_predict tt tt tt
                   example_config example_state
                 = (exec (generate_evaluation_reports_and_plots example_predict
                            tt tt tt example_config) example_state, Ok tt))
    by (vm_compute; reflexivity).
  assert (Hlog : logs_no_error example_state
                   (exec (generate_evaluation_reports_and_plots example_predict
                            tt tt tt example_config) example_state)).
  { eexists. split; [vm_compute; reflexivity|]. by repeat constructor. }
  split; [exact Hwf|]. split; [exact Hrun|]. split; [exact Hlog|].
  exact (successful_run_frame example_predict tt tt tt example_config
           example_state _ Hwf Hrun Hlog).
Defined.

(** C8 as stated fails: on a table that already has a [predicted_proba]
    column, a run that returns normally and logs no error changes that
    pre-existing column. *)
Lemma stale_column_is_overwritten :
  let s' := exec (generate_evaluation_reports_and_plots fresh_predict tt tt tt
                    example_config) stale_state in
  generate_evaluation_reports_and_plots fresh_predict tt tt tt example_config
    stale_state = (s', Ok tt)
  ∧ logs_no_error stale_state s'
  ∧ columns (frame stale_state) !! "predicted_proba"
    = Some (FloatCol [decimal 9 10; decimal 1 10])
  ∧ columns (frame s') !! "predicted_proba"
    = Some (FloatCol [decimal 1 10; decimal 9 10])
  ∧ columns (frame s') !! "predicted_proba"
    ≠ columns (frame stale_state) !! "predicted_proba".
Proof.
  cbn zeta. split; [by vm_compute|]. split.
  { eexists. split; [vm_compute; reflexivity|]. by repeat constructor. }
  split; [by vm_compute|]. split; [by vm_compute|].
  intros H. vm_compute in H. discriminate.
Qed.

(** ** Thresholding *)

Lemma SFcompare_antisym x y : SFcompare y x = CompOpp <$> SFcompare x y.
Proof.
  destruct x as [sx|sx| |sx mx ex], y as [sy|sy| |sy my ey]; cbn;
    try done; try (by destruct sx); try (by destruct sy);
    try (by destruct sx, sy).
  destruct sx, sy; cbn; try done.
  - rewrite (Z.compare_antisym ex ey). destruct (ex ?= ey); cbn; try done.
    f_equal. f_equal. exact (eq_sym (Pos.compare_cont_antisym mx my Eq)).
  - rewrite (Z.compare_antisym ex ey). destruct (ex ?= ey); cbn; try done.
    f_equal. exact (eq_sym (Pos.compare_cont_antisym mx my Eq)).
Qed.

(** [x < y] excludes [x >= y]. *)
Lemma lt_not_ge x y : lt x y = true → ge x y = false.
Proof.
  unfold lt, ge, SFltb, SFleb. rewrite (SFcompare_antisym x y).
  by destruct (SFcompare x y) as [[]|].
Qed.

Lemma df_setitem_list_aligned df k values :
  col_len values = nrows df ∨ nrows df = 0%nat →
  ∃ df1, df_setitem_list df k values = Ok df1.
Proof.
  unfold df_setitem_list. intros [Hlen|Hzero].
  - rewrite Hlen, Nat.eqb_refl. destruct (nrows df); cbn; eauto.
  - rewrite Hzero. cbn. destruct (col_len values); cbn; eauto.
Qed.

Section Thresholding.

Context {Model Tokenizer Device : Type}.
Variable predict_proba :
  list pyval → Model → Tokenizer → Device → Config → result (list float).
Variables (model : Model) (tokenizer : Tokenizer) (device : Device).
Variable config : Config.

(** Once the inference call has answered and its answer has been stored, the
    table at the end of the operation holds the predictions and the labels
    derived from them, whatever fails later. *)
Lemma run_frame s tl texts proba df1 :
  columns (frame s) !! "yo2" = Some tl →
  columns (frame s) !! "full_text" = Some texts →
  predict_proba (tolist texts) model tokenizer device config = Ok proba →
  df_setitem_list (frame s) "predicted_proba" (FloatCol proba) = Ok df1 →
  frame (exec (generate_evaluation_reports_and_plots predict_proba model
                 tokenizer device config) s)
  = df_setitem_series df1 "predicted_yo2" (predicted_labels_of proba).
Proof.
  intros Hyo2 Htext Hpp Hset.
  assert (Hprep : frame (exec (prepare predict_proba model tokenizer device config) s)
                  = df_setitem_series df1 "predicted_yo2" (predicted_labels_of proba)).
  { apply (prepare_frame _ _ _ _ _ s tl texts); try done.
    - unfold df_getitem. by rewrite Hyo2.
    - unfold df_getitem. by rewrite Htext. }
  pose proof (run_body_cases predict_proba model tokenizer device config s) as Hb.
  unfold exec, generate_evaluation_reports_and_plots, try_except in *.
  destruct (prepare predict_proba model tokenizer device config s)
    as [s0 [[[tl' pl] od]|e]] eqn:Hp; rewrite Hb; cbn [fst] in Hprep.
  - destruct (prepare_Ok_proba _ _ _ _ _ _ _ _ _ _ Hp) as (proba' & Hpc & _).
    destruct (generate_artifacts_run tl' pl od _ s0 Hpc)
      as (Hga & R1 & R2 & R3 & R4).
    cbn zeta in *. rewrite Hga. unfold exec; cbn [fst logging_info emit frame].
    fold (exec (plot_confusion_matrix tl' pl od) s0) in *.
    fold (exec (generate_classification_report tl' pl od)
            (exec (plot_confusion_matrix tl' pl od) s0)) in *.
    fold (exec (plot_roc_curve tl' (FloatCol proba') od)
            (exec (generate_classification_report tl' pl od)
               (exec (plot_confusion_matrix tl' pl od) s0))) in *.
    fold (exec (plot_precision_recall_curve tl' (FloatCol proba') od)
            (exec (plot_roc_curve tl' (FloatCol proba') od)
               (exec (generate_classification_report tl' pl od)
                  (exec (plot_confusion_matrix tl' pl od) s0)))) in *.
    rewrite (generator_run_frame _ _ _ _ R4), (generator_run_frame _ _ _ _ R3),
      (generator_run_frame _ _ _ _ R2), (generator_run_frame _ _ _ _ R1).
    done.
  - by destruct (is_Exception (exc_type e)).
Qed.

(** C2. In the table the operation leaves, the predicted label of every
    record is 1 when its predicted probability is greater than or equal to
    0.5, exactly 0.5 included, and 0 when it is smaller. *)
Theorem predicted_label_thresholds_at_half s tl texts proba :
  columns (frame s) !! "yo2" = Some tl →
  columns (frame s) !! "full_text" = Some texts →
  predict_proba (tolist texts) model tokenizer device config = Ok proba →
  length proba = nrows (frame s) →
  let s' := exec (generate_evaluation_reports_and_plots predict_proba model
                    tokenizer device config) s in
  ∃ predicted,
    columns (frame s') !! "predicted_proba" = Some (FloatCol proba)
    ∧ columns (frame s') !! "predicted_yo2" = Some (IntCol predicted)
    ∧ length predicted = length proba
    ∧ ∀ i p, proba !! i = Some p →
        (ge p half = true → predicted !! i = Some 1)
        ∧ (lt p half = true → predicted !! i = Some 0)
        ∧ (p = half → predicted !! i = Some 1).
Proof.
  intros Hyo2 Htext Hpp Hlen. cbn zeta.
  destruct (df_setitem_list_aligned (frame s) "predicted_proba" (FloatCol proba))
    as (df1 & Hset); [by left|].
  rewrite (run_frame _ _ _ _ _ Hyo2 Htext Hpp Hset).
  exists ((λ b : bool, if b then 1 else 0) <$> ((λ p, ge p half) <$> proba)).
  split.
  { apply getitem_predicted_proba in Hset. revert Hset.
    unfold df_getitem, df_setitem_series; cbn. rewrite lookup_insert_ne by done.
    destruct (columns df1 !! "predicted_proba"); congruence. }
  split; [apply lookup_insert_eq|].
  split; [by rewrite !length_fmap|].
  intros i p Hi. rewrite !list_lookup_fmap, Hi. cbn.
  split; [by intros ->|]. split.
  - intros Hlt. by rewrite (lt_not_ge _ _ Hlt).
  - by intros ->.
Qed.

(** C9. Whatever floats the inference call returns, values outside [0,1],
    infinities and NaN included, every entry of the predicted-label column
    the operation leaves in the table is 0 or 1. *)
Theorem predicted_labels_are_binary s tl texts proba :
  columns (frame s) !! "yo2" = Some tl →
  columns (frame s) !! "full_text" = Some texts →
  predict_proba (tolist texts) model tokenizer device config = Ok proba →
  length proba = nrows (frame s) ∨ nrows (frame s) = 0%nat →
  let s' := exec (generate_evaluation_reports_and_plots predict_proba model
                    tokenizer device config) s in
  ∃ predicted,
    columns (frame s') !! "predicted_yo2" = Some (IntCol predicted)
    ∧ length predicted = length proba
    ∧ Forall (λ y, y = 0 ∨ y = 1) predicted.
Proof.
  intros Hyo2 Htext Hpp Hlen. cbn zeta.
  destruct (df_setitem_list_aligned (frame s) "predicted_proba" (FloatCol proba))
    as (df1 & Hset); [done|].
  rewrite (run_frame _ _ _ _ _ Hyo2 Htext Hpp Hset).
  exists ((λ b : bool, if b then 1 else 0) <$> ((λ p, ge p half) <$> proba)).
  split; [apply lookup_insert_eq|].
  split; [by rewrite !length_fmap|].
  apply Forall_fmap, Forall_fmap, Forall_forall. intros p _. cbn.
  destruct (ge p half); auto.
Qed.

End Thresholding.

(** C2 on probabilities 0.49, 0.5 and 0.51: the labels are 0, 1 and 1. *)
Lemma predicted_label_thresholds_at_half_boundary :
  let s' := exec (generate_evaluation_reports_and_plots boundary_predict tt tt tt
                    example_config) boundary_state in
  length boundary_proba = nrows (frame boundary_state)
  ∧ columns (frame s') !! "predicted_yo2" = Some (IntCol [0; 1; 1])
  ∧ ∃ predicted,
      columns (frame s') !! "predicted_proba" = Some (FloatCol boundary_proba)
      ∧ columns (frame s') !! "predicted_yo2" = Some (IntCol predicted)
      ∧ length predicted = length boundary_proba
      ∧ ∀ i p, boundary_proba !! i = Some p →
          (ge p half = true → predicted !! i = Some 1)
          ∧ (lt p half = true → predicted !! i = Some 0)
          ∧ (p = half → predicted !! i = Some 1).
Proof.
  cbn zeta. split; [reflexivity|]. split; [by vm_compute|].
  apply (predicted_label_thresholds_at_half boundary_predict tt tt tt
           example_config boundary_state (IntCol [0; 1; 1])
           (StrCol ["a"; "b"; "c"]) boundary_proba).
  - by vm_compute.
  - by vm_compute.
  - reflexivity.
  - reflexivity.
Defined.

(** C9 on NaN, the infinities, 1.5 and -0.5: the labels are 0, 1, 0, 1, 0. *)
Lemma predicted_labels_are_binary_wild :
  let s' := exec (generate_evaluation_reports_and_plots wild_predict tt tt tt
                    example_config) wild_state in
  (length wild_proba = nrows (frame wild_state)
   ∨ nrows (frame wild_state) = 0%nat)
  ∧ columns (frame s') !! "predicted_yo2" = Some (IntCol [0; 1; 0; 1; 0])
  ∧ ∃ predicted,
      columns (frame s') !! "predicted_yo2" = Some (IntCol predicted)
      ∧ length predicted = length wild_proba
      ∧ Forall (λ y, y = 0 ∨ y = 1) predicted.
Proof.
  cbn zeta. split; [by left|]. split; [by vm_compute|].
  apply (predicted_labels_are_binary wild_predict tt tt tt example_config
           wild_state (IntCol [0; 1; 0; 1; 0])
           (StrCol ["a"; "b"; "c"; "d"; "e"]) wild_proba).
  - by vm_compute.
  - by vm_compute.
  - reflexivity.
  - by left.
Defined.

(** ** A single class *)

Lemma elem_of_insert_uniq (x y : Z) l : x ∈ insert_uniq y l ↔ x = y ∨ x ∈ l.
Proof.
  induction l as [|a l IH]; cbn.
  - rewrite list_elem_of_singleton, elem_of_nil. tauto.
  - destruct (y <? a) eqn:Hlt; [rewrite !elem_of_cons; tauto|].
    destruct (y =? a) eqn:Heq.
    + apply Z.eqb_eq in Heq as ->. rewrite !elem_of_cons. tauto.
    + rewrite !elem_of_cons, IH. tauto.
Qed.

Lemma elem_of_np_unique (x : Z) l : x ∈ np_unique l ↔ x ∈ l.
Proof.
  unfold np_unique. induction l as [|a l IH]; cbn; [done|].
  rewrite elem_of_insert_uniq, IH, elem_of_cons. tauto.
Qed.

(** When [numpy.unique] finds one value, every element is that value. *)
Lemma np_unique_singleton (l : list Z) u :
  np_unique l = [u] → Forall (λ x, x = u) l.
Proof.
  intros Hu. apply Forall_forall. intros x Hx.
  apply elem_of_np_unique in Hx. rewrite Hu in Hx.
  by apply list_elem_of_singleton in Hx.
Qed.

Lemma count_pair_all u (t p : list Z) :
  Forall (λ x, x = u) t → Forall (λ x, x = u) p → length t = length p →
  count_pair u u t p = Z.of_nat (length t).
Proof.
  unfold count_pair. intros Ht. revert p.
  induction Ht as [|x t -> _ IH]; intros p Hp Hlen.
  - by destruct p.
  - destruct Hp as [|y p -> Hp]; [done|]. cbn in *.
    rewrite decide_True by done. cbn. injection Hlen as Hlen.
    do 2 f_equal. apply Nat2Z.inj. exact (IH p Hp Hlen).
Qed.

Lemma count_eq_all u (t : list Z) :
  Forall (λ x, x = u) t → count_eq u t = Z.of_nat (length t).
Proof.
  unfold count_eq. induction 1 as [|x t -> _ IH]; [done|]. cbn.
  rewrite decide_True by done. cbn. do 2 f_equal. by apply Nat2Z.inj.
Qed.

(** C3. For two label columns of the same, positive length whose union holds
    one distinct value [u], lines 80-90 and 104-113 take the branch with the
    explicit label list [[u]]; the confusion matrix is the 1×1 matrix of the
    number of records, displayed with the one tick label [str(u)], and the
    report has one class row, for [str(u)], with all records as support;
    neither scikit-learn call raises, the figure is drawn, and both
    generators return normally. *)
Theorem single_class_is_handled (t p : list Z) (u : Z) d s :
  t ≠ [] → length t = length p → np_unique (t ++ p) = [u] →
  let n := Z.of_nat (length t) in
  sk_confusion_matrix (IntCol t) (IntCol p) (Some [u]) = Ok [[n]]
  ∧ confusion_matrix_display (IntCol t) (IntCol p)
    = Ok (mkDisplay [[n]] (Some [pretty u]))
  ∧ (disp_plot (mkDisplay [[n]] (Some [pretty u])) "Blues" s).2 = Ok tt
  ∧ (∃ r row,
       sk_classification_report (IntCol t) (IntCol p) (Some [u]) (Some [pretty u])
       = Ok r
       ∧ classification_report_of (IntCol t) (IntCol p) = Ok r
       ∧ class_rows r = [row]
       ∧ row_name row = pretty u
       ∧ row_support row = n)
  ∧ (∃ s', plot_confusion_matrix (IntCol t) (IntCol p) d s = (s', Ok tt))
  ∧ (∃ s', generate_classification_report (IntCol t) (IntCol p) d s = (s', Ok tt)).
Proof.
  intros Hne Hlen Hu. cbn zeta.
  pose proof (np_unique_singleton _ _ Hu) as Hall.
  apply Forall_app in Hall as [Ht Hp].
  assert (Hcm : sk_confusion_matrix (IntCol t) (IntCol p) (Some [u])
                = Ok [[Z.of_nat (length t)]]).
  { unfold sk_confusion_matrix, confusion_matrix; cbn.
    rewrite Hlen, Nat.eqb_refl; cbn.
    destruct t as [|x t]; [done|].
    assert (x = u) as -> by (by inversion Ht).
    unfold mem. rewrite bool_decide_eq_true_2 by (apply elem_of_cons; by left).
    cbn.
    unfold contingency. cbn [fmap list_fmap].
    by rewrite (count_pair_all u (u :: t) p), Hlen. }
  split; [done|].
  split.
  { unfold confusion_matrix_display, unique_concat.
    cbn -[sk_confusion_matrix np_unique]. rewrite Hu.
    cbn -[sk_confusion_matrix]. by rewrite Hcm. }
  split; [done|].
  split.
  { assert (Hrep : ∃ r, classification_report t p (Some [u]) (Some [pretty u])
                        = Ok r
                        ∧ class_rows r = [class_row t p (u, pretty u)]).
    { unfold classification_report. rewrite Hlen, Nat.eqb_refl. cbn. eauto. }
    destruct Hrep as (r & Hrep & Hrows).
    exists r, (class_row t p (u, pretty u)).
    split; [exact Hrep|].
    split.
    { unfold classification_report_of, unique_concat.
      cbn -[sk_classification_report np_unique]. rewrite Hu.
      cbn -[sk_classification_report]. exact Hrep. }
    split; [done|]. split; [done|]. by apply count_eq_all. }
  split.
  - destruct (plot_confusion_matrix_run (IntCol t) (IntCol p) d s)
      as (s' & Hs' & _). eauto.
  - destruct (generate_classification_report_run (IntCol t) (IntCol p) d s)
      as (s' & Hs' & _). eauto.
Qed.

(** C3 on four records that are all of class 0. *)
Lemma single_class_is_handled_zeros :
  let t := [0; 0; 0; 0] in
  let d := CfgStr "reports/eval" in
  let s := mkState (mkDF 0 ∅) (mkFS {["reports/eval"]} ∅ ∅) [] [] in
  (t ≠ [] ∧ length t = length t ∧ np_unique (t ++ t) = [0])
  ∧ sk_confusion_matrix (IntCol t) (IntCol t) (Some [0]) = Ok [[4]]
  ∧ confusion_matrix_display (IntCol t) (IntCol t)
    = Ok (mkDisplay [[4]] (Some [pretty 0]))
  ∧ (disp_plot (mkDisplay [[4]] (Some [pretty 0])) "Blues" s).2 = Ok tt
  ∧ (∃ r row,
       sk_classification_report (IntCol t) (IntCol t) (Some [0]) (Some [pretty 0])
       = Ok r
       ∧ classification_report_of (IntCol t) (IntCol t) = Ok r
       ∧ class_rows r = [row]
       ∧ row_name row = pretty 0
       ∧ row_support row = 4)
  ∧ (∃ s', plot_confusion_matrix (IntCol t) (IntCol t) d s = (s', Ok tt))
  ∧ (∃ s', generate_classification_report (IntCol t) (IntCol t) d s = (s', Ok tt)).
Proof.
  cbn zeta. split; [by repeat split|].
  apply (single_class_is_handled [0; 0; 0; 0] [0; 0; 0; 0] 0
           (CfgStr "reports/eval")
           (mkState (mkDF 0 ∅) (mkFS {["reports/eval"]} ∅ ∅) [] [])).
  - discriminate.
  - reflexivity.
  - reflexivity.
Defined.

(** On those records the two files are written: the picture of the 1×1
    matrix and the report with its one class row. *)
Example single_class_files :
  let t := IntCol [0; 0; 0; 0] in
  let d := CfgStr "reports/eval" in
  let s := mkState (mkDF 0 ∅) (mkFS {["reports/eval"]} ∅ ∅) [] [] in
  files (fs (exec (plot_confusion_matrix t t d) s))
    !! "reports/eval/confusion_matrix.png"
  = Some (Png [Heatmap [[4]] ["0"] "Blues"; Title "Confusion Matrix"])
  ∧ (λ a, match a with
          | Some (Text r) => row_name <$> class_rows r
          | _ => []
          end)
      (files (fs (exec (generate_classification_report t t d) s))
         !! "reports/eval/classification_report.txt")
    = ["0"].
Proof. cbn zeta. split; by vm_compute. Qed.

(** ** The example scenario *)

(** C6. With true labels [0,0,1,1] and predicted probabilities
    [0.1,0.4,0.6,0.9], the operation derives the predicted labels [0,0,1,1];
    the confusion matrix is [[2,0],[0,2]], the area under the ROC curve is
    1.0 and the average precision is 1.0; these are the matrix drawn in
    [confusion_matrix.png] and the numbers in the legends of [roc_curve.png]
    and [precision_recall_curve.png]. *)
Theorem example_scenario :
  let s' := exec (generate_evaluation_reports_and_plots example_predict tt tt tt
                    example_config) example_state in
  columns (frame s') !! "predicted_proba" = Some (FloatCol example_proba)
  ∧ columns (frame s') !! "predicted_yo2" = Some (IntCol [0; 0; 1; 1])
  ∧ sk_confusion_matrix (IntCol example_labels) (IntCol [0; 0; 1; 1]) None
    = Ok [[2; 0]; [0; 2]]
  ∧ (sk_roc_curve (IntCol example_labels) (FloatCol example_proba)
       ≫= λ '(fpr, tpr, _), auc fpr tpr) = Ok one
  ∧ sk_average_precision_score (IntCol example_labels) (FloatCol example_proba)
    = Ok one
  ∧ files (fs s') !! "reports/eval/confusion_matrix.png"
    = Some (Png [Heatmap [[2; 0]; [0; 2]] ["0"; "1"] "Blues";
                 Title "Confusion Matrix"])
  ∧ legend_labels (files (fs s') !! "reports/eval/roc_curve.png")
    = [AucLabel one]
  ∧ legend_labels (files (fs s') !! "reports/eval/precision_recall_curve.png")
    = [AvgPrecisionLabel one].
Proof. cbn zeta. repeat split; by vm_compute. Qed.

(** ** Figures *)

(** A generator that saved its picture has closed its figure: the open
    figures are those of the start. *)
Lemma saved_figure_is_closed d name s s' msg :
  generator_run (CfgStr d) name s s' → log s' = log s ++ [(INFO, msg)] →
  figures s' = figures s.
Proof.
  intros Hrun Hlog. by destruct (generator_run_saved _ _ _ _ _ Hrun Hlog) as (a & _ & ?).
Qed.

(** C7 fails on the code: [plt.close()] is the last statement but one of the
    [try] block, so a generator whose [plt.savefig] raises returns with its
    figure open. Here [plot_roc_curve], [plot_precision_recall_curve] and
    [plot_confusion_matrix] are called with an output directory that does not
    exist and no figure open: each logs its failure and leaves one figure
    open. The same happens inside the whole operation when the path of
    [roc_curve.png] is taken by a directory. *)
Theorem figure_left_open_when_savefig_fails :
  let t := IntCol [0; 1] in
  let p := FloatCol [decimal 1 10; decimal 9 10] in
  let missing := CfgStr "missing" in
  let after_roc := exec (plot_roc_curve t p missing) bare_state in
  let after_pr := exec (plot_precision_recall_curve t p missing) bare_state in
  let after_cm := exec (plot_confusion_matrix t t missing) bare_state in
  let after_run := exec (generate_evaluation_reports_and_plots example_predict
                           tt tt tt example_config) occupied_state in
  figures bare_state = []
  ∧ length (figures after_roc) = 1%nat
  ∧ log after_roc
    = [(ERROR, "Failed to generate ROC curve: [Errno 2] No such file or directory: 'missing/roc_curve.png'")]
  ∧ length (figures after_pr) = 1%nat
  ∧ length (figures after_cm) = 1%nat
  ∧ figures occupied_state = []
  ∧ length (figures after_run) = 1%nat
  ∧ (ERROR, "Failed to generate ROC curve: [Errno 21] Is a directory: 'reports/eval/roc_curve.png'")
    ∈ log after_run.
Proof.
  cbn zeta. repeat split; try (by vm_compute).
  apply (bool_decide_unpack _). by vm_compute.
Qed.
